(** * NCEI daily summaries: a shallow embedding of [daily_summaries.py]

    The module fetches daily weather observations, renames the category codes
    of the service to descriptive field names, converts the textual values to
    typed values and returns records that all carry the same, complete set
    of fields.

    Python values are embedded as follows.
    - [str] is [string]; a character stands for the code point of the same
      number, so the strings covered are those whose code points are below
      256.  [len] is [String.length], comparison is code point order.
    - [dict] is an association list in insertion order (Python dictionaries
      keep insertion order); assignment replaces in place or appends.
    - exceptions are a value of [exn] carried by [result].
    - [int(...)] on text is [py_int]; its limit on the number of digits
      (a runtime setting) is not modelled.
    - [float(...)], [datetime.date.fromisoformat], the rendering of a decoded
      JSON object by [str()] and the HTTP transport belong to the runtime, not
      to the module: they are variables of the section [Pipeline]. *)

From Stdlib Require Import String Ascii List ZArith NArith Bool Lia Permutation.
Import ListNotations.
Open Scope string_scope.

(** ** Exceptions *)

(** A message of [None] is a text produced by the runtime. *)
Inductive exn : Type :=
| ValueError (msg : option string)
| TypeError (msg : option string)
| KeyError (key : string)
| ResponseError (msg : string)
| TransportError.

Inductive result (A : Type) : Type :=
| Ok (a : A)
| Raise (e : exn).
Arguments Ok {A} a.
Arguments Raise {A} e.

Definition bind {A B : Type} (r : result A) (k : A -> result B) : result B :=
  match r with
  | Ok a => k a
  | Raise e => Raise e
  end.

Notation "x <- r ;; k" := (bind r (fun x => k))
  (at level 61, r at next level, right associativity).

(** [for x in xs: ... append] with a body that can raise. *)
Fixpoint for_each {A B : Type} (body : A -> result B) (xs : list A)
  : result (list B) :=
  match xs with
  | [] => Ok []
  | x :: rest =>
      y <- body x ;;
      ys <- for_each body rest ;;
      Ok (y :: ys)
  end.

Definition is_ValueError (e : exn) : bool :=
  match e with ValueError _ => true | _ => false end.
Definition is_TypeError (e : exn) : bool :=
  match e with TypeError _ => true | _ => false end.
Definition is_KeyError (e : exn) : bool :=
  match e with KeyError _ => true | _ => false end.
Definition is_ResponseError (e : exn) : bool :=
  match e with ResponseError _ => true | _ => false end.

(** The error kinds of the design and the exceptions that realise them:
    bad dates and unparsable values are both [ValueError], an unknown
    category code is the [KeyError] of the enumeration lookup. *)
Definition is_ValidationError : exn -> bool := is_ValueError.
Definition is_TypeCoercionError : exn -> bool := is_ValueError.
Definition is_UnknownFieldError : exn -> bool := is_KeyError.

Definition fails_with {A : Type} (kind : exn -> bool) (r : result A) : bool :=
  match r with
  | Ok _ => false
  | Raise e => kind e
  end.

(** ** Strings *)

Definition code_point (c : ascii) : N := N_of_ascii c.

(** [str.isspace] on one character, for code points below 256. *)
Definition is_space (c : ascii) : bool :=
  let n := code_point c in
  ((9 <=? n) && (n <=? 13) || (28 <=? n) && (n <=? 32)
   || (n =? 133) || (n =? 160))%N.

(** The characters [int()] skips around a literal: [str.isspace] without
    the separators 28 to 31. *)
Definition is_int_space (c : ascii) : bool :=
  let n := code_point c in
  ((9 <=? n) && (n <=? 13) || (n =? 32) || (n =? 133) || (n =? 160))%N.

Section Strip.
Variable sp : ascii -> bool.

Fixpoint lstrip_by (s : string) : string :=
  match s with
  | EmptyString => EmptyString
  | String c rest => if sp c then lstrip_by rest else s
  end.

Fixpoint rstrip_by (s : string) : string :=
  match s with
  | EmptyString => EmptyString
  | String c rest =>
      match rstrip_by rest with
      | EmptyString => if sp c then EmptyString else String c EmptyString
      | kept => String c kept
      end
  end.

Definition strip_by (s : string) : string := rstrip_by (lstrip_by s).

Fixpoint all_chars (s : string) : bool :=
  match s with
  | EmptyString => true
  | String c rest => sp c && all_chars rest
  end.
End Strip.

(** [s.strip()] *)
Definition strip : string -> string := strip_by is_space.

(** [s[start:stop]] with Python's treatment of missing, negative and
    out-of-range bounds. *)
Definition slice_index (len : Z) (i : option Z) (missing : Z) : Z :=
  match i with
  | None => missing
  | Some i =>
      if (i <? 0)%Z then Z.max (i + len) 0 else Z.min i len
  end.

Definition py_slice (s : string) (start stop : option Z) : string :=
  let len := Z.of_nat (String.length s) in
  let lo := slice_index len start 0%Z in
  let hi := slice_index len stop len in
  substring (Z.to_nat lo) (Z.to_nat (hi - lo)) s.

Definition is_digit (c : ascii) : bool :=
  let n := code_point c in ((48 <=? n) && (n <=? 57))%N.

Definition digit_value (c : ascii) : Z := Z.of_N (code_point c - 48).

(** Decimal digits, single underscores allowed between two digits. *)
Fixpoint int_digits (acc : Z) (after_digit : bool) (s : string) : option Z :=
  match s with
  | EmptyString => if after_digit then Some acc else None
  | String c rest =>
      if is_digit c then int_digits (10 * acc + digit_value c) true rest
      else if (c =? "_")%char && after_digit then int_digits acc false rest
      else None
  end.

(** [int(s)] for a string [s]; [None] stands for [ValueError]. *)
Definition py_int (s : string) : option Z :=
  match strip_by is_int_space s with
  | String "+" rest => int_digits 0 false rest
  | String "-" rest => option_map Z.opp (int_digits 0 false rest)
  | body => int_digits 0 false body
  end.

(** [a > b] and [a <= b] on [str]. *)
Definition str_gt (a b : string) : bool :=
  match String.compare a b with Gt => true | _ => false end.
Definition str_le (a b : string) : bool := negb (str_gt a b).

(** [substr in s] *)
Fixpoint contains (substr s : string) : bool :=
  prefix substr s
  || match s with
     | EmptyString => false
     | String _ rest => contains substr rest
     end.

(** ** Dictionaries *)

Definition dict (V : Type) : Type := list (string * V).

Section Dict.
Context {V : Type}.

(** [d.keys()], [d.items()] *)
Definition dict_keys (d : dict V) : list string := map fst d.
Definition dict_items (d : dict V) : list (string * V) := d.

(** [d[k]] when present *)
Fixpoint dict_get (d : dict V) (k : string) : option V :=
  match d with
  | [] => None
  | (k', v) :: rest => if k' =? k then Some v else dict_get rest k
  end.

(** [k in d.keys()] *)
Definition dict_mem (k : string) (d : dict V) : bool :=
  existsb (String.eqb k) (dict_keys d).

(** [d[k] = v] *)
Fixpoint dict_set (d : dict V) (k : string) (v : V) : dict V :=
  match d with
  | [] => [(k, v)]
  | (k', v') :: rest =>
      if k' =? k then (k', v) :: rest else (k', v') :: dict_set rest k v
  end.

(** [d[k]], raising [KeyError] when absent *)
Definition dict_index (d : dict V) (k : string) : result V :=
  match dict_get d k with
  | Some v => Ok v
  | None => Raise (KeyError k)
  end.
End Dict.

(** No key occurs twice: what every Python dictionary satisfies. *)
Fixpoint distinct (ks : list string) : bool :=
  match ks with
  | [] => true
  | k :: rest => negb (existsb (String.eqb k) rest) && distinct rest
  end.

Definition subset (xs ys : list string) : bool :=
  forallb (fun x => existsb (String.eqb x) ys) xs.

(** The two lists hold the same keys. *)
Definition same_keys (xs ys : list string) : bool :=
  subset xs ys && subset ys xs.

(** [{k: v for k, v in items}] *)
Definition dict_of_items {V : Type} (items : list (string * V)) : dict V :=
  fold_left (fun d kv => dict_set d (fst kv) (snd kv)) items [].

(** A loop over [xs] that updates a local state and can raise. *)
Fixpoint for_fold {S A : Type} (body : S -> A -> result S) (xs : list A)
  (s : S) : result S :=
  match xs with
  | [] => Ok s
  | x :: rest => s' <- body s x ;; for_fold body rest s'
  end.

(** ** Dates and times *)

(** [width] decimal digits of [n], zero padded: ["%0<width>d"]. *)
Fixpoint zfill (width : nat) (n : N) (acc : string) : string :=
  match width with
  | O => acc
  | S w => zfill w (n / 10) (String (ascii_of_N (48 + n mod 10)) acc)
  end.

(** [datetime.date]: year in 1..9999. *)
Record pydate : Type := mk_date { year : N; month : N; day : N }.

(** [datetime.time] *)
Record pytime : Type :=
  mk_time { hour : Z; minute : Z; second : Z; microsecond : Z }.

(** A [datetime.datetime] without time zone. *)
Record pydatetime : Type :=
  mk_datetime { dt_date : pydate; dt_hour : N; dt_minute : N; dt_second : N;
                dt_microsecond : N }.

Definition date_isoformat (d : pydate) : string :=
  zfill 4 (year d) "" ++ "-" ++ zfill 2 (month d) "" ++ "-"
  ++ zfill 2 (day d) "".

Definition datetime_isoformat (t : pydatetime) : string :=
  date_isoformat (dt_date t) ++ "T" ++ zfill 2 (dt_hour t) "" ++ ":"
  ++ zfill 2 (dt_minute t) "" ++ ":" ++ zfill 2 (dt_second t) ""
  ++ (if (dt_microsecond t =? 0)%N then ""
      else "." ++ zfill 6 (dt_microsecond t) "").

(** [datetime.time(hour=h, minute=m)]: the range checks of the
    constructor; seconds and microseconds take their default 0. *)
Definition datetime_time (h m : Z) : result pytime :=
  if negb ((0 <=? h) && (h <=? 23))%Z then Raise (ValueError None)
  else if negb ((0 <=? m) && (m <=? 59))%Z then Raise (ValueError None)
  else Ok (mk_time h m 0 0).

(** ** Values *)

(** The values a record can hold; [F] is the type of Python floats. *)
Inductive value (F : Type) : Type :=
| VNone
| VStr (s : string)
| VInt (n : Z)
| VFloat (x : F)
| VBool (b : bool)
| VDate (d : pydate)
| VTime (t : pytime).
Arguments VNone {F}.
Arguments VStr {F} s.
Arguments VInt {F} n.
Arguments VFloat {F} x.
Arguments VBool {F} b.
Arguments VDate {F} d.
Arguments VTime {F} t.

(** What a date argument of the top-level call can be: a [datetime.date],
    a [datetime.datetime] (a subclass of [datetime.date]), a [str], or an
    object of any other class. *)
Inductive date_arg : Type :=
| ArgDate (d : pydate)
| ArgDatetime (t : pydatetime)
| ArgStr (s : string)
| ArgOther.

(** The [units] argument: left out, [None], or a string. *)
Inductive units_arg : Type :=
| UnitsOmitted
| UnitsNone
| UnitsStr (s : string).

(** The decoded body of the reply: a JSON object ([dict]) or a list of
    rows, each a [dict] from category code to text. *)
Inductive response (J : Type) : Type :=
| RespDict (content : J)
| RespList (rows : list (dict string)).
Arguments RespDict {J} content.
Arguments RespList {J} rows.

(** ** The dataclass and the enumeration *)

(** The annotations used by [DailySummary]. *)
Inductive annotation : Type :=
| Adate | Astr | Aint | Afloat | Abool | Atime.

(** [cls.__name__] *)
Definition __name__ (a : annotation) : string :=
  match a with
  | Adate => "date" | Astr => "str" | Aint => "int"
  | Afloat => "float" | Abool => "bool" | Atime => "time"
  end.

(** The default of a dataclass field: [None] or [False]. *)
Inductive default : Type := DNone | DFalse.

Record field : Type :=
  mk_field { fname : string; fannot : annotation; fdefault : default }.

Definition DailySummary : list field :=
  [ mk_field "date" Adate DNone;
    mk_field "station" Astr DNone;
    mk_field "avg_temp" Aint DNone;
    mk_field "min_temp" Aint DNone;
    mk_field "max_temp" Aint DNone;
    mk_field "precipitation" Afloat DNone;
    mk_field "snowfall" Afloat DNone;
    mk_field "snow_depth" Afloat DNone;
    mk_field "cloudiness_midnight_to_midnight" Afloat DNone;
    mk_field "cloudiness_sunrise_to_sunset" Afloat DNone;
    mk_field "percent_possible_sunshine" Aint DNone;
    mk_field "total_sunshine" Aint DNone;
    mk_field "frozen_ground_layer" Aint DNone;
    mk_field "water_equivalent_snow_on_ground" Afloat DNone;
    mk_field "fog" Abool DFalse;
    mk_field "heavy_fog" Abool DFalse;
    mk_field "thunder" Abool DFalse;
    mk_field "sleet" Abool DFalse;
    mk_field "hail" Abool DFalse;
    mk_field "glaze" Abool DFalse;
    mk_field "dust" Abool DFalse;
    mk_field "smoke" Abool DFalse;
    mk_field "blowing_snow" Abool DFalse;
    mk_field "high_wind" Abool DFalse;
    mk_field "mist" Abool DFalse;
    mk_field "drizzle" Abool DFalse;
    mk_field "freezing_drizzle" Abool DFalse;
    mk_field "rain" Abool DFalse;
    mk_field "freezing_rain" Abool DFalse;
    mk_field "snow" Abool DFalse;
    mk_field "other_precipitation" Abool DFalse;
    mk_field "ground_fog" Abool DFalse;
    mk_field "ice_fog" Abool DFalse;
    mk_field "avg_wind" Afloat DNone;
    mk_field "fog_in_area" Abool DFalse;
    mk_field "thunder_in_area" Abool DFalse;
    mk_field "rain_or_snow_in_area" Abool DFalse;
    mk_field "time_fastest_mile_or_fastest_1_minute_wind" Atime DNone;
    mk_field "peak_gust_time" Atime DNone;
    mk_field "direction_fastest_1_minute_wind" Aint DNone;
    mk_field "direction_fastest_2_minute_wind" Aint DNone;
    mk_field "direction_fastest_5_second_wind" Aint DNone;
    mk_field "direction_peak_gust" Aint DNone;
    mk_field "direction_fastest_mile_wind" Aint DNone;
    mk_field "fastest_1_minute_wind" Afloat DNone;
    mk_field "fastest_2_minute_wind" Afloat DNone;
    mk_field "fastest_5_second_wind" Afloat DNone;
    mk_field "peak_gust" Afloat DNone;
    mk_field "fastest_mile_wind" Afloat DNone;
    mk_field "avg_relative_humidity" Aint DNone;
    mk_field "min_relative_humidity" Aint DNone;
    mk_field "max_relative_humidity" Aint DNone;
    mk_field "avg_sea_level_pressure" Afloat DNone;
    mk_field "avg_station_pressure" Afloat DNone;
    mk_field "avg_dew_point_temperature" Aint DNone;
    mk_field "avg_wet_bulb_temperature" Aint DNone ].

(** The field names, in declaration order. *)
Definition field_names : list string := map fname DailySummary.

(** [DailySummary.__annotations__] *)
Definition __annotations__ : dict annotation :=
  map (fun f => (fname f, fannot f)) DailySummary.

(** The members of [ConversionEnum]: name and value. *)
Definition ConversionEnum : list (string * string) :=
  [ ("DATE", "date");
    ("STATION", "station");
    ("TAVG", "avg_temp");
    ("TMIN", "min_temp");
    ("TMAX", "max_temp");
    ("PRCP", "precipitation");
    ("SNOW", "snowfall");
    ("SNWD", "snow_depth");
    ("ACMH", "cloudiness_midnight_to_midnight");
    ("ACSH", "cloudiness_sunrise_to_sunset");
    ("PSUN", "percent_possible_sunshine");
    ("TSUN", "total_sunshine");
    ("FRGT", "frozen_ground_layer");
    ("WESD", "water_equivalent_snow_on_ground");
    ("WT01", "fog");
    ("WT02", "heavy_fog");
    ("WT03", "thunder");
    ("WT04", "sleet");
    ("WT05", "hail");
    ("WT06", "glaze");
    ("WT07", "dust");
    ("WT08", "smoke");
    ("WT09", "blowing_snow");
    ("WT11", "high_wind");
    ("WT13", "mist");
    ("WT14", "drizzle");
    ("WT15", "freezing_drizzle");
    ("WT16", "rain");
    ("WT17", "freezing_rain");
    ("WT18", "snow");
    ("WT19", "other_precipitation");
    ("WT21", "ground_fog");
    ("WT22", "ice_fog");
    ("WV01", "fog_in_area");
    ("WV03", "thunder_in_area");
    ("WV20", "rain_or_snow_in_area");
    ("AWND", "avg_wind");
    ("FMTM", "time_fastest_mile_or_fastest_1_minute_wind");
    ("PGTM", "peak_gust_time");
    ("WDF1", "direction_fastest_1_minute_wind");
    ("WDF2", "direction_fastest_2_minute_wind");
    ("WDF5", "direction_fastest_5_second_wind");
    ("WDFG", "direction_peak_gust");
    ("WDFM", "direction_fastest_mile_wind");
    ("WSF1", "fastest_1_minute_wind");
    ("WSF2", "fastest_2_minute_wind");
    ("WSF5", "fastest_5_second_wind");
    ("WSFG", "peak_gust");
    ("WSFM", "fastest_mile_wind");
    ("RHAV", "avg_relative_humidity");
    ("RHMN", "min_relative_humidity");
    ("RHMX", "max_relative_humidity");
    ("ASLP", "avg_sea_level_pressure");
    ("ASTP", "avg_station_pressure");
    ("ADPT", "avg_dew_point_temperature");
    ("AWBT", "avg_wet_bulb_temperature") ].

(** [ConversionEnum[k].value]: lookup of a member by name. *)
Definition enum_value (k : string) : result string :=
  dict_index ConversionEnum k.

(** The codes of the enumeration that translate to field [f]. *)
Definition codes_of (f : string) : list string :=
  map fst (filter (fun m => snd m =? f) ConversionEnum).

(** ** Functions that do not touch the runtime *)

(** One date argument of [_validate_dates].  The first test,
    [isinstance(d, datetime.date)], also holds of a [datetime.datetime],
    whose own [isoformat] then applies; the second test is never reached. *)
Definition validate_one (d : date_arg) (bad_length bad_type : string)
  : result string :=
  match d with
  | ArgDate d => Ok (date_isoformat d)
  | ArgDatetime t => Ok (datetime_isoformat t)
  | ArgStr s =>
      if negb (String.length s =? 10)%nat
      then Raise (ValueError (Some bad_length))
      else Ok s
  | ArgOther => Raise (TypeError (Some bad_type))
  end.

Definition _validate_dates (start_date end_date : date_arg)
  : result (string * string) :=
  start_date <- validate_one start_date
      "Start date must be in the form YYYY-MM-DD."
      "Start date must be a string or datetime object." ;;
  end_date <- validate_one end_date
      "End date must be in the form YYYY-MM-DD."
      "End date must be a string or datetime object." ;;
  if str_gt start_date end_date
  then Raise (ValueError (Some "Start date must be before end date."))
  else Ok (start_date, end_date).

Definition _base_url : string :=
  "https://www.ncei.noaa.gov/access/services/data/v1?dataset=daily-summaries".
Definition _format_string : string := "&format=json".

Definition _construct_request_url
  (start_date end_date station_id units : string) : string :=
  _base_url ++ "&startDate=" ++ start_date ++ "&endDate=" ++ end_date
  ++ "&stations=" ++ station_id ++ "&units=" ++ units ++ _format_string.

(** The dictionary comprehension of [_convert_keys] on one row. *)
Definition convert_row (i : dict string) : result (dict string) :=
  for_fold (fun converted kv =>
              name <- enum_value (fst kv) ;;
              Ok (dict_set converted name (snd kv)))
           (dict_items i) [].

Definition _convert_keys (data : list (dict string))
  : result (list (dict string)) :=
  for_each convert_row data.

Definition int_of_str (s : string) : result Z :=
  match py_int s with
  | Some n => Ok n
  | None => Raise (ValueError None)
  end.

Definition _convert_time_string (time_string : string) : result pytime :=
  h <- int_of_str (py_slice time_string None (Some 3%Z)) ;;
  m <- int_of_str (py_slice time_string (Some (-2)%Z) None) ;;
  datetime_time h m.

(** [dtype_dict] of [_coerce_types]: field name to the name of its class. *)
Definition dtype_dict : dict string :=
  dict_of_items
    (combine (dict_keys __annotations__)
             (map (fun kv => __name__ (snd kv)) __annotations__)).

(** [not u] for [u] a string or [None]. *)
Definition py_not (u : option string) : bool :=
  match u with
  | None => true
  | Some s => s =? ""
  end.

(** [f"{u}"] *)
Definition format_value (u : option string) : string :=
  match u with
  | None => "None"
  | Some s => s
  end.

(** An action: the URLs requested, in order, and the outcome. *)
Definition io (A : Type) : Type := (list string * result A)%type.

(** ** A sample runtime *)

Module Sample.
(** Floats stood for by their literal; only digits and dots are read. *)
Definition py_float (s : string) : option string :=
  match strip s with
  | EmptyString => None
  | t => if all_chars (fun c => is_digit c || (c =? ".")%char) t
         then Some t else None
  end.

(** [YYYY-MM-DD] with the digits unchecked beyond their place. *)
Definition date_fromisoformat (s : string) : option pydate :=
  match py_int (py_slice s None (Some 4%Z)),
        py_int (py_slice s (Some 5%Z) (Some 7%Z)),
        py_int (py_slice s (Some 8%Z) None) with
  | Some y, Some m, Some d =>
      if (String.length s =? 10)%nat
      then Some (mk_date (Z.to_N y) (Z.to_N m) (Z.to_N d)) else None
  | _, _, _ => None
  end.

(** A decoded JSON object stood for by its rendering. *)
Definition py_str (content : string) : string := content.

Definition rows : list (dict string) :=
  [ [("DATE", "2020-05-01"); ("TMAX", "310"); ("WT01", "1");
     ("PGTM", "01230")];
    [("STATION", "USW00024233"); ("WT03", " 1 "); ("WT16", "0")] ].

Definition serve_rows (url : string) : result (response string) :=
  Ok (RespList rows).

Definition envelope : string := "{'errorMessage': 'Bad request'}".

Definition serve_error (url : string) : result (response string) :=
  Ok (RespDict envelope).
End Sample.

(** ** Functions over the runtime *)

Section Pipeline.
Context {float_t : Type} {json_object : Type}.

(** [float(s)]; [None] stands for [ValueError]. *)
Variable py_float : string -> option float_t.
(** [datetime.date.fromisoformat(s)]; [None] stands for [ValueError]. *)
Variable date_fromisoformat : string -> option pydate.
(** [str(d)] for a decoded JSON object [d]. *)
Variable py_str : json_object -> string.
(** [requests.get(url).json()] *)
Variable requests_get_json : string -> result (response json_object).

Definition default_value (d : default) : value float_t :=
  match d with
  | DNone => VNone
  | DFalse => VBool false
  end.

(** [asdict(DailySummary())] *)
Definition template : dict (value float_t) :=
  map (fun f => (fname f, default_value (fdefault f))) DailySummary.

(** The body of the outer loop of [_remap_dictionaries]. *)
Definition remap_row (template_dict i : dict (value float_t))
  : result (dict (value float_t)) :=
  for_fold (fun new_dict key =>
              if dict_mem key i
              then v <- dict_index i key ;; Ok (dict_set new_dict key v)
              else v <- dict_index template_dict key ;;
                   Ok (dict_set new_dict key v))
           (dict_keys template_dict) [].

Definition _remap_dictionaries (data : list (dict (value float_t)))
  : result (list (dict (value float_t))) :=
  let template_dict := template in
  for_each (remap_row template_dict) data.

Definition float_of_str (s : string) : result float_t :=
  match py_float s with
  | Some x => Ok x
  | None => Raise (ValueError None)
  end.

Definition date_of_str (s : string) : result pydate :=
  match date_fromisoformat s with
  | Some d => Ok d
  | None => Raise (ValueError None)
  end.

(** The body of the inner loop of [_coerce_types]: [i] is the row as
    updated so far, [(k, v)] the item visited. *)
Definition coerce_item (i : dict (value float_t)) (kv : string * string)
  : result (dict (value float_t)) :=
  let k := fst kv in
  let v := snd kv in
  ty <- dict_index dtype_dict k ;;
  if ty =? "int" then n <- int_of_str v ;; Ok (dict_set i k (VInt n))
  else if ty =? "float" then
    x <- float_of_str v ;; Ok (dict_set i k (VFloat x))
  else if ty =? "bool" then
    Ok (dict_set i k (VBool (if strip v =? "1" then true else false)))
  else if ty =? "date" then
    d <- date_of_str v ;; Ok (dict_set i k (VDate d))
  else if ty =? "time" then
    t <- _convert_time_string v ;; Ok (dict_set i k (VTime t))
  else Ok i.

Definition coerce_row (i : dict string) : result (dict (value float_t)) :=
  for_fold coerce_item (dict_items i)
           (map (fun kv => (fst kv, VStr (snd kv))) i).

Definition _coerce_types (data : list (dict string))
  : result (list (dict (value float_t))) :=
  for_each coerce_row data.

Definition _make_api_call (start_date end_date station_id : string)
  (units : option string) : io (list (dict string)) :=
  let units := if py_not units then Some "standard" else units in
  let url := _construct_request_url start_date end_date station_id
               (format_value units) in
  ([url],
   response <- requests_get_json url ;;
   match response with
   | RespDict content =>
       Raise (ResponseError
                ("API returned the following error: " ++ py_str content))
   | RespList rows => Ok rows
   end).

(** The constructor of the dataclass called with keyword arguments
    [kwargs]: the instance, as its fields in declaration order; a keyword
    that is no field is a [TypeError]. *)
Definition DailySummary_init (kwargs : dict (value float_t))
  : result (dict (value float_t)) :=
  if negb (subset (dict_keys kwargs) field_names)
  then Raise (TypeError None)
  else Ok (map (fun f =>
                  (fname f,
                   match dict_get kwargs (fname f) with
                   | Some v => v
                   | None => default_value (fdefault f)
                   end))
               DailySummary).

(** What the top-level call returns: the rows as received, or the
    summaries. *)
Inductive output : Type :=
| Raw (rows : list (dict string))
| Summaries (records : list (dict (value float_t))).

(** The parameter [units] after binding its default. *)
Definition bind_units (units : units_arg) : option string :=
  match units with
  | UnitsOmitted => Some "standard"
  | UnitsNone => None
  | UnitsStr s => Some s
  end.

Definition get_daily_summaries (station_id : string)
  (start_date end_date : date_arg) (units : units_arg) (return_raw : bool)
  : io output :=
  let units := bind_units units in
  match _validate_dates start_date end_date with
  | Raise e => ([], Raise e)
  | Ok (start_date, end_date) =>
      let (requested, raw_data) :=
        _make_api_call start_date end_date station_id units in
      (requested,
       raw_data <- raw_data ;;
       if return_raw then Ok (Raw raw_data)
       else
         data <- _convert_keys raw_data ;;
         data <- _coerce_types data ;;
         data <- _remap_dictionaries data ;;
         records <- for_each DailySummary_init data ;;
         Ok (Summaries records))
  end.
End Pipeline.


(** ** Vocabulary of the properties *)

(** The caller leaves [units] out or passes an empty value. *)
Definition absent_or_empty (units : units_arg) : bool :=
  match units with
  | UnitsOmitted | UnitsNone => true
  | UnitsStr s => s =? ""
  end.

(** [f] is a field of the dataclass annotated [bool]. *)
Definition boolean_field (f : string) : bool :=
  match dict_get __annotations__ f with
  | Some Abool => true
  | _ => false
  end.

(** [f] is a field of the dataclass with another annotation. *)
Definition non_boolean_field (f : string) : bool :=
  match dict_get __annotations__ f with
  | Some Abool | None => false
  | Some _ => true
  end.

(** A record that holds every field of the dataclass once and nothing
    else. *)
Definition complete {V : Type} (r : dict V) : bool :=
  distinct (dict_keys r) && same_keys (dict_keys r) field_names.

(** Two dictionaries with the same items, whatever the order: Python's
    [==] on dictionaries whose values compare by identity. *)
Definition same_dict {V : Type} (a b : dict V) : Prop :=
  Permutation (dict_items a) (dict_items b).

(** What the normalizer puts at an item of the template: the value of
    the row when the row has the key, the default otherwise. *)
Definition filled {V : Type} (i : dict V) (kd : string * V) : string * V :=
  (fst kd, match dict_get i (fst kd) with Some v => v | None => snd kd end).

(** The field name a code translates to; a code the enumeration lacks is
    left as it is. *)
Definition translate (k : string) : string :=
  match dict_get ConversionEnum k with
  | Some name => name
  | None => k
  end.

(** What coercion makes of the text [v] of a field annotated [a]. *)
Definition coerced {F : Type} (py_float : string -> option F)
  (date_fromisoformat : string -> option pydate) (a : annotation)
  (v : string) (x : value F) : Prop :=
  match a with
  | Aint => exists n, py_int v = Some n /\ x = VInt n
  | Afloat => exists y, py_float v = Some y /\ x = VFloat y
  | Abool => x = VBool (if strip v =? "1" then true else false)
  | Adate => exists d, date_fromisoformat v = Some d /\ x = VDate d
  | Atime => exists t, _convert_time_string v = Ok t /\ x = VTime t
  | Astr => x = VStr v
  end.

(** Year, month and day within the ranges of [datetime.date]. *)
Definition is_date (d : pydate) : bool :=
  ((1 <=? year d) && (year d <=? 9999) && (1 <=? month d) && (month d <=? 12)
   && (1 <=? day d) && (day d <=? 31))%N.

(** [a] is a later day than [b]. *)
Definition date_after (a b : pydate) : bool :=
  match (year a ?= year b)%N with
  | Gt => true
  | Lt => false
  | Eq => match (month a ?= month b)%N with
          | Gt => true
          | Lt => false
          | Eq => match (day a ?= day b)%N with Gt => true | _ => false end
          end
  end.

(** The number a string of decimal digits denotes, after [acc]. *)
Fixpoint decimal_value (acc : Z) (s : string) : Z :=
  match s with
  | EmptyString => acc
  | String c rest => decimal_value (10 * acc + digit_value c) rest
  end.

(** ** Sample calls *)

Module SampleRun.
(** A call answered with rows. *)
Definition call_rows (units : units_arg) (return_raw : bool)
  : io (@output string) :=
  get_daily_summaries Sample.py_float Sample.date_fromisoformat Sample.py_str
    Sample.serve_rows "USW00024233" (ArgStr "2020-05-01")
    (ArgStr "2020-05-02") units return_raw.

(** A call answered with an error envelope. *)
Definition call_error (units : units_arg) (return_raw : bool)
  : io (@output string) :=
  get_daily_summaries Sample.py_float Sample.date_fromisoformat Sample.py_str
    Sample.serve_error "USW00024233" (ArgStr "2020-05-01")
    (ArgStr "2020-05-02") units return_raw.

Definition url : string :=
  "https://www.ncei.noaa.gov/access/services/data/v1?dataset=daily-summaries&startDate=2020-05-01&endDate=2020-05-02&stations=USW00024233&units=standard&format=json".

(** The summaries of the sample rows. *)
Definition records : list (dict (value string)) :=
  Eval vm_compute in
    match snd (call_rows UnitsOmitted false) with
    | Ok (Summaries rs) => rs
    | _ => []
    end.

(** A record with every field, in the reverse of the declaration order. *)
Definition reversed : dict (value string) :=
  rev (dict_set (dict_set template "max_temp" (VInt 310)) "fog" (VBool true)).

(** Rows one of which carries a code the enumeration lacks. *)
Definition rows_with_unknown_code : list (dict string) :=
  [ [("TMAX", "310")]; [("TMIN", "280"); ("WT10", "1")] ].
End SampleRun.

(** A transport that fails, and dates as objects. *)
Module SampleMore.
Definition serve_failure (url : string) : result (response string) :=
  Raise TransportError.

Definition may_first : pydate := mk_date 2020 5 1.
Definition june_first : pydate := mk_date 2020 6 1.

(** Rows as [_convert_keys] returns them for [Sample.rows]. *)
Definition translated : list (dict string) :=
  [ [("date", "2020-05-01"); ("max_temp", "310"); ("fog", "1");
     ("peak_gust_time", "01230")];
    [("station", "USW00024233"); ("thunder", " 1 "); ("rain", "0")] ].

(** A transport that answers with a code the enumeration lacks. *)
Definition serve_unknown (url : string) : result (response string) :=
  Ok (RespList SampleRun.rows_with_unknown_code).

Definition call_unknown (return_raw : bool) : io (@output string) :=
  get_daily_summaries Sample.py_float Sample.date_fromisoformat Sample.py_str
    serve_unknown "USW00024233" (ArgStr "2020-05-01") (ArgStr "2020-05-02")
    UnitsOmitted return_raw.

(** A partial record with a key that is no field. *)
Definition partial : dict (value string) :=
  [("max_temp", VInt 310); ("fog", VBool true); ("comment", VStr "n/a")].
End SampleMore.

(** * Properties *)

(** ** Results and loops *)

Lemma Ok_inj {A : Type} (a b : A) : Ok a = Ok b -> a = b.
Proof. intros [= ->]. reflexivity. Qed.

Lemma bind_ok {A B : Type} (r : result A) (k : A -> result B) (b : B) :
  bind r k = Ok b -> exists a, r = Ok a /\ k a = Ok b.
Proof.
  destruct r as [a|e]; simpl; intros H; [eauto | discriminate].
Qed.

Lemma bind_raise {A B : Type} (r : result A) (k : A -> result B) (e : exn) :
  bind r k = Raise e ->
  r = Raise e \/ exists a, r = Ok a /\ k a = Raise e.
Proof.
  destruct r as [a|e']; simpl; intros H; [right; eauto | left; congruence].
Qed.

Lemma for_each_ok {A B : Type} (body : A -> result B) (xs : list A)
  (ys : list B) :
  for_each body xs = Ok ys <-> Forall2 (fun x y => body x = Ok y) xs ys.
Proof.
  revert ys; induction xs as [|x rest IH]; intros ys; simpl.
  - split; intros H.
    + injection H as <-. constructor.
    + inversion H. reflexivity.
  - split; intros H.
    + apply bind_ok in H as (y & Hy & H).
      apply bind_ok in H as (ys' & Hys & H).
      injection H as <-. constructor; [exact Hy | now apply IH].
    + inversion H as [|? y ? ys' Hy Hys]; subst.
      rewrite Hy. simpl. apply IH in Hys. rewrite Hys. reflexivity.
Qed.

Lemma for_each_total {A B : Type} (body : A -> result B) (f : A -> B)
  (xs : list A) :
  (forall x, body x = Ok (f x)) -> for_each body xs = Ok (map f xs).
Proof.
  intros H. induction xs as [|x rest IH]; simpl; [reflexivity|].
  rewrite H. simpl. rewrite IH. reflexivity.
Qed.

Lemma for_each_raise {A B : Type} (body : A -> result B) (xs : list A)
  (e : exn) :
  for_each body xs = Raise e -> exists x, In x xs /\ body x = Raise e.
Proof.
  induction xs as [|x rest IH]; simpl; [discriminate|].
  intros H. apply bind_raise in H as [H | (y & Hy & H)].
  - exists x. auto.
  - apply bind_raise in H as [H | (ys & Hys & H)]; [|discriminate].
    destruct (IH H) as (x' & Hin & Hx'). exists x'. auto.
Qed.

Lemma for_each_not_ok {A B : Type} (body : A -> result B) (xs : list A)
  (x : A) :
  In x xs -> (forall y, body x <> Ok y) -> forall ys, for_each body xs <> Ok ys.
Proof.
  intros Hin Hx ys H. apply for_each_ok in H.
  revert Hin. induction H as [|x' y' xs' ys' Hy _ IH]; simpl; [tauto|].
  intros [-> | Hin]; [exact (Hx _ Hy) | exact (IH Hin)].
Qed.

(** ** Keys *)

Lemma existsb_eqb_In (k : string) (ks : list string) :
  existsb (String.eqb k) ks = true <-> In k ks.
Proof.
  rewrite existsb_exists. split.
  - intros (x & Hin & Heq). apply String.eqb_eq in Heq. now subst.
  - intros Hin. exists k. split; [exact Hin | apply String.eqb_refl].
Qed.

Lemma distinct_NoDup (ks : list string) :
  distinct ks = true <-> NoDup ks.
Proof.
  induction ks as [|k rest IH]; simpl.
  - split; [constructor | reflexivity].
  - rewrite andb_true_iff, negb_true_iff, IH. split.
    + intros [Hk Hrest]. constructor; [|exact Hrest].
      intros Hin. apply existsb_eqb_In in Hin. congruence.
    + intros H. inversion H as [|? ? Hk Hrest]; subst. split; [|exact Hrest].
      destruct (existsb (String.eqb k) rest) eqn:E; [|reflexivity].
      apply existsb_eqb_In in E. contradiction.
Qed.

Lemma subset_incl (xs ys : list string) :
  subset xs ys = true <-> incl xs ys.
Proof.
  unfold subset. rewrite forallb_forall. split; intros H x Hin.
  - apply existsb_eqb_In, H, Hin.
  - apply existsb_eqb_In, H, Hin.
Qed.

Lemma same_keys_iff (xs ys : list string) :
  same_keys xs ys = true <-> (forall k, In k xs <-> In k ys).
Proof.
  unfold same_keys. rewrite andb_true_iff, !subset_incl. unfold incl.
  split; [intros [H1 H2] k; split; auto | intros H; split; intros k; apply H].
Qed.

(** ** Dictionaries *)

Section DictFacts.
Context {V : Type}.
Implicit Types (d : dict V) (k : string) (v : V).

Lemma dict_mem_In k d : dict_mem k d = true <-> In k (dict_keys d).
Proof. apply existsb_eqb_In. Qed.

Lemma dict_get_None k d : dict_get d k = None <-> ~ In k (dict_keys d).
Proof.
  induction d as [|[k' v'] rest IH]; simpl; [tauto|].
  destruct (String.eqb_spec k' k) as [->|Hne].
  - split; [discriminate | intros H; exfalso; auto].
  - rewrite IH. tauto.
Qed.

Lemma dict_mem_get k d :
  dict_mem k d = true <-> exists v, dict_get d k = Some v.
Proof.
  rewrite dict_mem_In. destruct (dict_get d k) as [v|] eqn:E.
  - split; [eauto|]. intros _.
    destruct (in_dec string_dec k (dict_keys d)) as [Hin|Hout]; [exact Hin|].
    apply dict_get_None in Hout. congruence.
  - apply dict_get_None in E. split; [contradiction | intros [v Hv]; discriminate].
Qed.

Lemma dict_mem_false k d : dict_mem k d = false <-> dict_get d k = None.
Proof.
  rewrite dict_get_None, <- dict_mem_In.
  destruct (dict_mem k d); split; congruence.
Qed.

Lemma dict_get_In k v d : dict_get d k = Some v -> In (k, v) d.
Proof.
  induction d as [|[k' v'] rest IH]; simpl; [discriminate|].
  destruct (String.eqb_spec k' k) as [->|Hne].
  - intros [= ->]. now left.
  - intros H. right. auto.
Qed.

Lemma In_dict_get k v d :
  NoDup (dict_keys d) -> In (k, v) d -> dict_get d k = Some v.
Proof.
  induction d as [|[k' v'] rest IH]; simpl; [tauto|].
  intros Hnd. inversion Hnd as [|? ? Hk Hrest]; subst.
  intros [[= -> ->] | Hin].
  - now rewrite String.eqb_refl.
  - destruct (String.eqb_spec k' k) as [->|Hne]; [|auto].
    exfalso. apply Hk. change k with (fst (k, v)). now apply in_map.
Qed.

Lemma dict_set_fresh d k v :
  ~ In k (dict_keys d) -> dict_set d k v = (d ++ [(k, v)])%list.
Proof.
  induction d as [|[k' v'] rest IH]; simpl; [reflexivity|].
  intros Hout. destruct (String.eqb_spec k' k) as [->|Hne].
  - exfalso. auto.
  - rewrite IH; [reflexivity | tauto].
Qed.

Lemma dict_get_set d k v k' :
  dict_get (dict_set d k v) k' = if k =? k' then Some v else dict_get d k'.
Proof.
  induction d as [|[k0 v0] rest IH]; simpl.
  - destruct (k =? k'); reflexivity.
  - destruct (String.eqb_spec k0 k) as [->|Hne]; simpl.
    + destruct (k =? k'); reflexivity.
    + rewrite IH. destruct (String.eqb_spec k0 k') as [->|Hne'];
        [|reflexivity].
      destruct (String.eqb_spec k k') as [->|_]; [congruence | reflexivity].
Qed.

Lemma dict_keys_set_present d k v :
  In k (dict_keys d) -> dict_keys (dict_set d k v) = dict_keys d.
Proof.
  induction d as [|[k0 v0] rest IH]; simpl; [tauto|].
  intros Hin. destruct (String.eqb_spec k0 k) as [->|Hne]; simpl;
    [reflexivity|].
  f_equal. apply IH. destruct Hin; [congruence | assumption].
Qed.

Lemma dict_get_app d d' k :
  dict_get (d ++ d')%list k =
  match dict_get d k with Some v => Some v | None => dict_get d' k end.
Proof.
  induction d as [|[k0 v0] rest IH]; simpl; [reflexivity|].
  destruct (k0 =? k); [reflexivity | exact IH].
Qed.

(** A dictionary is the list of its keys, each with its value. *)
Lemma dict_as_lookups d (dflt : V) :
  NoDup (dict_keys d) ->
  d = map (fun k => (k, match dict_get d k with Some v => v | None => dflt end))
          (dict_keys d).
Proof.
  induction d as [|[k v] rest IH]; simpl; [reflexivity|].
  intros Hnd. inversion Hnd as [|? ? Hk Hrest]; subst.
  rewrite String.eqb_refl. f_equal.
  rewrite (IH Hrest) at 1. apply map_ext_in.
  intros k' Hin. destruct (String.eqb_spec k k') as [->|_];
    [contradiction | reflexivity].
Qed.
End DictFacts.

(** ** The schema *)

Lemma field_names_distinct : NoDup field_names.
Proof. apply distinct_NoDup. vm_compute. reflexivity. Qed.

Lemma enum_names_distinct : NoDup (map fst ConversionEnum).
Proof. apply distinct_NoDup. vm_compute. reflexivity. Qed.

Lemma enum_values_distinct : NoDup (map snd ConversionEnum).
Proof. apply distinct_NoDup. vm_compute. reflexivity. Qed.

(** The values of the enumeration are the fields of the dataclass. *)
Lemma enum_values_are_fields (k : string) :
  In k (map snd ConversionEnum) <-> In k field_names.
Proof. apply same_keys_iff. vm_compute. reflexivity. Qed.

Lemma dtype_dict_eq :
  dtype_dict = map (fun f => (fname f, __name__ (fannot f))) DailySummary.
Proof. vm_compute. reflexivity. Qed.

(** ** The normalizer *)

Section Normalizer.
Context {float_t : Type}.
Abbreviation record := (dict (value float_t)).
Implicit Types (i r t : record) (data : list record).

Lemma template_keys : dict_keys (@template float_t) = field_names.
Proof. unfold template, dict_keys, field_names. rewrite map_map. reflexivity. Qed.

Lemma filled_keys i t : dict_keys (map (filled i) t) = dict_keys t.
Proof. unfold dict_keys. rewrite map_map. reflexivity. Qed.

Lemma remap_loop t i (pre suf : record) :
  t = (pre ++ suf)%list -> NoDup (dict_keys t) ->
  for_fold
    (fun new_dict key =>
       if dict_mem key i
       then v <- dict_index i key ;; Ok (dict_set new_dict key v)
       else v <- dict_index t key ;; Ok (dict_set new_dict key v))
    (dict_keys suf) (map (filled i) pre)
  = Ok (map (filled i) t).
Proof.
  revert pre. induction suf as [|[k d] suf IH]; intros pre Ht Hnd.
  - simpl. rewrite Ht, app_nil_r. reflexivity.
  - assert (Hfresh : ~ In k (dict_keys pre)).
    { rewrite Ht in Hnd. unfold dict_keys in Hnd. rewrite map_app in Hnd.
      simpl in Hnd. apply NoDup_remove_2 in Hnd.
      intros Hin. apply Hnd, in_or_app. now left. }
    assert (Hstep : forall v, filled i (k, d) = (k, v) ->
              dict_set (map (filled i) pre) k v
              = map (filled i) (pre ++ [(k, d)])%list).
    { intros v Hv. rewrite dict_set_fresh by now rewrite filled_keys.
      rewrite map_app. simpl. now rewrite Hv. }
    assert (Hnext : t = ((pre ++ [(k, d)]) ++ suf)%list).
    { rewrite <- app_assoc. exact Ht. }
    simpl. destruct (dict_mem k i) eqn:Hmem.
    + apply dict_mem_get in Hmem as [v Hv]. unfold dict_index. rewrite Hv.
      simpl. rewrite (Hstep v).
      * now apply IH.
      * unfold filled. simpl. now rewrite Hv.
    + apply dict_mem_false in Hmem. unfold dict_index.
      replace (dict_get t k) with (Some d).
      * simpl. rewrite (Hstep d).
        -- now apply IH.
        -- unfold filled. simpl. now rewrite Hmem.
      * rewrite Ht, dict_get_app.
        apply dict_get_None in Hfresh. rewrite Hfresh. simpl.
        now rewrite String.eqb_refl.
Qed.

(** A row is normalized to the template with its own values filled in. *)
Lemma remap_row_eq t i :
  NoDup (dict_keys t) -> remap_row t i = Ok (map (filled i) t).
Proof.
  intros Hnd. exact (remap_loop t i [] t eq_refl Hnd).
Qed.

Lemma template_distinct : NoDup (dict_keys (@template float_t)).
Proof. rewrite template_keys. exact field_names_distinct. Qed.

Lemma remap_dictionaries_eq data :
  _remap_dictionaries data = Ok (map (fun i => map (filled i) template) data).
Proof.
  unfold _remap_dictionaries. apply for_each_total.
  intros i. apply remap_row_eq, template_distinct.
Qed.

Lemma dict_get_filled i t k :
  dict_get (map (filled i) t) k =
  match dict_get t k with
  | Some d => Some (match dict_get i k with Some v => v | None => d end)
  | None => None
  end.
Proof.
  induction t as [|[k' d] t IH]; simpl; [reflexivity|].
  destruct (String.eqb_spec k' k) as [->|Hne]; [reflexivity | exact IH].
Qed.

Lemma template_get (f : string) :
  dict_get (@template float_t) f =
  option_map (fun a => match a with Abool => VBool false | _ => VNone end)
             (dict_get __annotations__ f).
Proof.
  unfold template, __annotations__.
  assert (H : Forall (fun fld => default_value (fdefault fld)
                       = match fannot fld with
                         | Abool => VBool false
                         | _ => @VNone float_t
                         end) DailySummary).
  { unfold DailySummary. repeat constructor. }
  induction H as [|fld rest Hfld _ IH]; simpl; [reflexivity|].
  destruct (fname fld =? f); [simpl; now rewrite Hfld | exact IH].
Qed.
Lemma complete_filled r :
  complete r = true ->
  map (filled r) template
  = map (fun k => (k, match dict_get r k with Some v => v | None => VNone end))
        field_names.
Proof.
  unfold complete. rewrite andb_true_iff, same_keys_iff. intros [_ Hkeys].
  rewrite <- template_keys. unfold dict_keys. rewrite map_map.
  apply map_ext_in. intros [k d] Hin. unfold filled. simpl.
  assert (Hk : In k (dict_keys r)).
  { apply Hkeys. rewrite <- template_keys.
    change k with (fst (k, d)). now apply in_map. }
  apply dict_mem_In, dict_mem_get in Hk as [v Hv]. now rewrite Hv.
Qed.

(** C1.  Whatever the input records hold, the normalizer returns, without
    raising, as many records as it was given, and the keys of each are the
    field names of [DailySummary], each once and in declaration order; as a
    set they are the field names, which are also the values of the
    enumeration. *)
Theorem remap_key_set_is_schema data :
  exists out,
    _remap_dictionaries data = Ok out /\
    length out = length data /\
    Forall (fun r =>
              dict_keys r = field_names /\
              (forall k, dict_mem k r = true <-> In k field_names) /\
              (forall k, dict_mem k r = true <-> In k (map snd ConversionEnum)))
           out.
Proof.
  eexists. split; [apply remap_dictionaries_eq|].
  split; [apply length_map|].
  apply Forall_forall. intros r Hin.
  apply in_map_iff in Hin as (i & <- & _).
  assert (Hkeys : dict_keys (map (filled i) (@template float_t)) = field_names).
  { rewrite filled_keys. apply template_keys. }
  split; [exact Hkeys|].
  split; intros k; rewrite dict_mem_In, Hkeys; [tauto|].
  symmetry. apply enum_values_are_fields.
Qed.

(** C6.  A field of the dataclass that is not boolean and that a row does
    not hold is [None] in the normalized record; [None] is neither [False],
    nor zero, nor the empty string, nor any float. *)
Theorem absent_non_boolean_field_is_None data (n : nat) i (f : string) :
  nth_error data n = Some i ->
  non_boolean_field f = true ->
  dict_mem f i = false ->
  exists out r,
    _remap_dictionaries data = Ok out /\
    nth_error out n = Some r /\
    dict_get r f = Some VNone /\
    @VNone float_t <> VBool false /\
    @VNone float_t <> VInt 0 /\
    @VNone float_t <> VStr "" /\
    (forall x : float_t, VNone <> VFloat x).
Proof.
  intros Hn Hf Hmem.
  exists (map (fun i => map (filled i) template) data), (map (filled i) template).
  split; [apply remap_dictionaries_eq|].
  split; [exact (map_nth_error (fun i => map (filled i) template) n data Hn)|].
  split; [|repeat split; intros; discriminate].
  rewrite dict_get_filled, template_get.
  apply dict_mem_false in Hmem. rewrite Hmem.
  unfold non_boolean_field in Hf.
  destruct (dict_get __annotations__ f) as [[]|]; simpl; congruence.
Qed.

(** C8.  A record that already holds every field once and nothing else is
    returned with the same items: every field keeps its value, no default
    replaces one; when its fields are in declaration order the record
    returned is the record given. *)
Theorem remap_complete_unchanged data :
  Forall (fun r => complete r = true) data ->
  exists out,
    _remap_dictionaries data = Ok out /\
    Forall2 (fun r r' =>
               same_dict r' r /\
               (forall k, dict_get r' k = dict_get r k) /\
               (dict_keys r = field_names -> r' = r))
            data out.
Proof.
  intros Hall. eexists. split; [apply remap_dictionaries_eq|].
  induction Hall as [|r data Hr _ IH]; [constructor|].
  rewrite map_cons. constructor; [|exact IH].
  pose proof Hr as Hc. unfold complete in Hc.
  apply andb_true_iff in Hc as [Hnd Hkeys].
  apply distinct_NoDup in Hnd. rewrite same_keys_iff in Hkeys.
  rewrite (complete_filled r Hr).
  pose proof (dict_as_lookups r VNone Hnd) as Hself.
  split; [|split].
  - unfold same_dict, dict_items.
    assert (Hperm : Permutation field_names (dict_keys r)).
    { apply NoDup_Permutation;
        [exact field_names_distinct | exact Hnd
        | intros k; symmetry; apply Hkeys]. }
    apply (Permutation_map
             (fun k => (k, match dict_get r k with
                           | Some v => v
                           | None => VNone
                           end))) in Hperm.
    rewrite <- Hself in Hperm. exact Hperm.
  - intros k. rewrite <- (complete_filled r Hr), dict_get_filled, template_get.
    destruct (dict_get r k) as [v|] eqn:Hv.
    + assert (Hin : In k field_names).
      { apply Hkeys, dict_mem_In, dict_mem_get. eauto. }
      destruct (dict_get __annotations__ k) eqn:Ha; [reflexivity|].
      exfalso. apply dict_get_None in Ha. apply Ha.
      unfold __annotations__, dict_keys. rewrite map_map. exact Hin.
    + destruct (dict_get __annotations__ k) eqn:Ha; [|reflexivity].
      exfalso. apply dict_get_None in Hv. apply Hv, Hkeys.
      assert (Hin : In k (dict_keys __annotations__)).
      { apply dict_mem_In, dict_mem_get. eauto. }
      unfold __annotations__, dict_keys in Hin. rewrite map_map in Hin.
      exact Hin.
  - intros Heq. rewrite <- Heq. symmetry. exact Hself.
Qed.
End Normalizer.

(** ** Strings *)

Lemma compare_refl (s : string) : String.compare s s = Eq.
Proof.
  pose proof (String.compare_antisym s s) as H.
  destruct (String.compare s s); simpl in H; congruence.
Qed.

Lemma str_gt_irrefl (s : string) : str_gt s s = false.
Proof. unfold str_gt. now rewrite compare_refl. Qed.

(** [str_gt] is the lexicographic order on code points: at the first
    position where the strings differ the left one has the larger code
    point, or the right one is a proper prefix of the left one. *)
Lemma str_gt_lexicographic (a b : string) :
  str_gt a b = true <->
  (exists p c x d y,
      a = p ++ String c x /\ b = p ++ String d y /\
      (code_point d < code_point c)%N)
  \/ (exists c x, a = b ++ String c x).
Proof.
  unfold str_gt. revert b. induction a as [|c a IH]; intros [|d b]; simpl.
  - split; [discriminate|].
    intros [(p & c & x & d & y & Ha & _) | (c & x & Ha)];
      [destruct p | idtac]; discriminate.
  - split; [discriminate|].
    intros [(p & c & x & d' & y & Ha & _) | (c & x & Ha)];
      [destruct p | idtac]; discriminate.
  - split; [intros _ | reflexivity]. right. exists c, a. reflexivity.
  - unfold Ascii.compare. fold (code_point c) (code_point d).
    destruct (N.compare_spec (code_point c) (code_point d)) as [Heq|Hlt|Hgt].
    + assert (c = d) as ->.
      { unfold code_point in Heq.
        rewrite <- (ascii_N_embedding c), <- (ascii_N_embedding d).
        now rewrite Heq. }
      rewrite IH. split.
      * intros [(p & c & x & d' & y & -> & -> & Hlt) | (c & x & ->)].
        -- left. exists (String d p), c, x, d', y. auto.
        -- right. exists c, x. reflexivity.
      * intros [(p & c & x & d' & y & Ha & Hb & Hlt) | (c & x & Ha)].
        -- destruct p as [|q p]; simpl in Ha, Hb.
           ++ injection Ha as <- _. injection Hb as <- _. lia.
           ++ injection Ha as _ ->. injection Hb as _ ->.
              left. exists p, c, x, d', y. auto.
        -- injection Ha as ->. right. exists c, x. reflexivity.
    + split; [discriminate|].
      intros [(p & c' & x & d' & y & Ha & Hb & Hlt') | (c' & x & Ha)].
      * destruct p as [|q p]; simpl in Ha, Hb.
        -- injection Ha as <- _. injection Hb as <- _. lia.
        -- injection Ha as -> _. injection Hb as -> _. lia.
      * injection Ha as -> _. lia.
    + split; [intros _ | reflexivity].
      left. exists "", c, a, d, b. auto.
Qed.

Lemma prefix_refl (s : string) : prefix s s = true.
Proof.
  induction s as [|c s IH]; simpl; [reflexivity|].
  destruct (ascii_dec c c); [exact IH | contradiction].
Qed.

Lemma contains_suffix (p x : string) : contains x (p ++ x) = true.
Proof.
  induction p as [|c p IH]; simpl.
  - destruct x as [|c x]; [reflexivity|].
    cbn [contains append]. now rewrite prefix_refl.
  - rewrite IH. apply orb_true_r.
Qed.

(** ** Date validation *)

Lemma validate_one_str (s bad_length bad_type : string) :
  String.length s = 10 -> validate_one (ArgStr s) bad_length bad_type = Ok s.
Proof. intros H. simpl. rewrite H. reflexivity. Qed.

Lemma validate_dates_str (s e : string) :
  String.length s = 10 -> String.length e = 10 ->
  _validate_dates (ArgStr s) (ArgStr e) =
  if str_gt s e
  then Raise (ValueError (Some "Start date must be before end date."))
  else Ok (s, e).
Proof.
  intros Hs He. unfold _validate_dates.
  rewrite (validate_one_str s), (validate_one_str e) by assumption.
  reflexivity.
Qed.

(** C7.  On two strings of ten characters, validation fails, with a
    [ValueError], exactly when the start is greater than the end in the
    lexicographic order of strings; otherwise the pair is returned as it
    was given, which covers equal dates. *)
Theorem validate_dates_fails_iff_start_after_end (s e : string) :
  String.length s = 10 -> String.length e = 10 ->
  (fails_with is_ValidationError (_validate_dates (ArgStr s) (ArgStr e)) = true
   <-> str_gt s e = true) /\
  ((exists x, _validate_dates (ArgStr s) (ArgStr e) = Raise x)
   <-> str_gt s e = true) /\
  (str_gt s e = false -> _validate_dates (ArgStr s) (ArgStr e) = Ok (s, e)) /\
  (s = e -> _validate_dates (ArgStr s) (ArgStr e) = Ok (s, e)).
Proof.
  intros Hs He. rewrite (validate_dates_str s e Hs He).
  destruct (str_gt s e) eqn:Hgt; simpl.
  - repeat split; try tauto; try discriminate; eauto.
    intros ->. rewrite str_gt_irrefl in Hgt. discriminate.
  - repeat split; try tauto; try discriminate.
    intros [x Hx]. discriminate.
Qed.

(** ** Slices *)

Lemma substring_prefix (n : nat) (s : string) :
  exists rest,
    s = substring 0 n s ++ rest /\
    String.length (substring 0 n s) = Nat.min n (String.length s).
Proof.
  revert s. induction n as [|n IH]; intros [|c s]; simpl.
  - exists "". auto.
  - exists (String c s). auto.
  - exists "". auto.
  - destruct (IH s) as (rest & Hs & Hlen). exists rest.
    split; [now rewrite <- Hs | now rewrite Hlen].
Qed.

Lemma substring_all (n : nat) (s : string) :
  String.length s <= n -> substring 0 n s = s.
Proof.
  revert s. induction n as [|n IH]; intros [|c s]; simpl; intros H;
    try reflexivity; [lia|].
  rewrite IH by lia. reflexivity.
Qed.

Lemma substring_suffix (n m : nat) (s : string) :
  n + m = String.length s ->
  exists front, s = front ++ substring n m s /\
                String.length (substring n m s) = m.
Proof.
  revert s. induction n as [|n IH]; intros s H.
  - exists "". rewrite substring_all by lia. simpl. split; [reflexivity | lia].
  - destruct s as [|c s]; simpl in H; [lia|].
    destruct (IH s) as (front & Hs & Hlen); [lia|].
    exists (String c front). simpl. split; [now rewrite <- Hs | exact Hlen].
Qed.

(** [s[:3]] is the first three characters of [s], or all of a shorter
    [s]. *)
Lemma slice_first_three (s : string) :
  exists rest,
    s = py_slice s None (Some 3%Z) ++ rest /\
    String.length (py_slice s None (Some 3%Z)) = Nat.min 3 (String.length s).
Proof.
  assert (Heq : py_slice s None (Some 3%Z)
                = substring 0 (Z.to_nat (Z.min 3 (Z.of_nat (String.length s))))
                            s).
  { unfold py_slice, slice_index. change (3 <? 0)%Z with false. cbv iota.
    change (Z.to_nat 0) with 0. now rewrite Z.sub_0_r. }
  rewrite Heq.
  destruct (substring_prefix
              (Z.to_nat (Z.min 3 (Z.of_nat (String.length s)))) s)
    as (rest & Hs & Hlen).
  exists rest. split; [exact Hs|]. rewrite Hlen. lia.
Qed.

(** [s[-2:]] is the last two characters of [s], or all of a shorter [s]. *)
Lemma slice_last_two (s : string) :
  exists front,
    s = front ++ py_slice s (Some (-2)%Z) None /\
    String.length (py_slice s (Some (-2)%Z) None)
    = Nat.min 2 (String.length s).
Proof.
  unfold py_slice, slice_index. change (-2 <? 0)%Z with true. cbv iota.
  set (len := Z.of_nat (String.length s)).
  destruct (substring_suffix (Z.to_nat (Z.max (-2 + len) 0))
              (Z.to_nat (len - Z.max (-2 + len) 0)) s)
    as (front & Hs & Hlen); [lia|].
  exists front. split; [exact Hs|]. rewrite Hlen. lia.
Qed.

(** ** Time of day *)

Lemma datetime_time_ok (h m : Z) (t : pytime) :
  datetime_time h m = Ok t <->
  (0 <= h <= 23)%Z /\ (0 <= m <= 59)%Z /\ t = mk_time h m 0 0.
Proof.
  unfold datetime_time.
  destruct (Z.leb_spec 0 h), (Z.leb_spec h 23), (Z.leb_spec 0 m),
    (Z.leb_spec m 59); simpl; split;
    try discriminate; try (intros (? & ? & _); lia).
  - intros [= <-]. repeat split; assumption.
  - intros (_ & _ & ->). reflexivity.
Qed.

Lemma datetime_time_raise (h m : Z) (e : exn) :
  datetime_time h m = Raise e -> e = ValueError None.
Proof.
  unfold datetime_time.
  destruct (negb _); [congruence|]. destruct (negb _); congruence.
Qed.

Lemma convert_time_string_raise (s : string) (e : exn) :
  _convert_time_string s = Raise e -> e = ValueError None.
Proof.
  unfold _convert_time_string, int_of_str.
  destruct (py_int (py_slice s None (Some 3%Z))) as [h|]; simpl;
    [|congruence].
  destruct (py_int (py_slice s (Some (-2)%Z) None)) as [m|]; simpl;
    [|congruence].
  apply datetime_time_raise.
Qed.

(** C3.  The hour is [int] of the first three characters and the minute
    [int] of the last two, with seconds and microseconds zero; the call
    returns exactly when [int] reads both and they lie in 0..23 and 0..59,
    and fails with a [ValueError] in every other case: when [int] rejects
    one of the two slices, or the hour or the minute is out of range. *)
Theorem convert_time_string_slicing (s : string) :
  let hh := py_slice s None (Some 3%Z) in
  let mm := py_slice s (Some (-2)%Z) None in
  (exists rest, s = hh ++ rest /\
                String.length hh = Nat.min 3 (String.length s)) /\
  (exists front, s = front ++ mm /\
                 String.length mm = Nat.min 2 (String.length s)) /\
  (forall t, _convert_time_string s = Ok t <->
             exists h m, py_int hh = Some h /\ py_int mm = Some m /\
                         (0 <= h <= 23)%Z /\ (0 <= m <= 59)%Z /\
                         t = mk_time h m 0 0) /\
  (py_int hh = None \/ py_int mm = None \/
   (exists h, py_int hh = Some h /\ ~ (0 <= h <= 23)%Z) \/
   (exists m, py_int mm = Some m /\ ~ (0 <= m <= 59)%Z) ->
   fails_with is_TypeCoercionError (_convert_time_string s) = true) /\
  ((exists t, _convert_time_string s = Ok t) \/
   fails_with is_TypeCoercionError (_convert_time_string s) = true).
Proof.
  intros hh mm.
  assert (Hok : forall t, _convert_time_string s = Ok t <->
             exists h m, py_int hh = Some h /\ py_int mm = Some m /\
                         (0 <= h <= 23)%Z /\ (0 <= m <= 59)%Z /\
                         t = mk_time h m 0 0).
  { intros t. unfold _convert_time_string, int_of_str. fold hh mm.
    destruct (py_int hh) as [h|]; simpl.
    - destruct (py_int mm) as [m|]; simpl.
      + rewrite datetime_time_ok. split.
        * intros (Hh & Hm & ->). exists h, m. auto.
        * intros (h' & m' & [= <-] & [= <-] & Hh & Hm & ->). auto.
      + split; [discriminate|]. intros (h' & m' & _ & Hm & _). discriminate.
    - split; [discriminate|]. intros (h' & m' & Hh & _). discriminate. }
  assert (Htotal : (exists t, _convert_time_string s = Ok t) \/
            fails_with is_TypeCoercionError (_convert_time_string s) = true).
  { destruct (_convert_time_string s) as [t|e] eqn:E; [left; eauto|].
    right. apply convert_time_string_raise in E. subst. reflexivity. }
  split; [apply slice_first_three|].
  split; [apply slice_last_two|].
  split; [exact Hok|].
  split; [|exact Htotal].
  intros Hbad. destruct Htotal as [[t Ht]|Hfail]; [|exact Hfail].
  apply Hok in Ht as (h & m & Hh & Hm & Hhr & Hmr & _).
  destruct Hbad as [Hbad|[Hbad|[(h' & Hbad & Hr)|(m' & Hbad & Hr)]]];
    congruence.
Qed.

(** A text that is no number can still be accepted: [int] does not read
    ["012:30"], yet its first three characters give the hour 12 and its
    last two the minute 30; the colon between them is never examined. *)
Lemma non_numeric_time_text_accepted :
  ~ (forall s, py_int s = None ->
               fails_with is_TypeCoercionError (_convert_time_string s) = true).
Proof.
  intros H. specialize (H "012:30" eq_refl). vm_compute in H. discriminate.
Qed.

(** ** Key translation *)

Lemma convert_loop_raise (items : dict string) (acc : dict string) (e : exn) :
  for_fold (fun converted kv =>
              name <- enum_value (fst kv) ;;
              Ok (dict_set converted name (snd kv))) items acc = Raise e ->
  exists k, e = KeyError k /\ In k (dict_keys items) /\
            dict_get ConversionEnum k = None.
Proof.
  revert acc. induction items as [|[k v] items IH]; intros acc; simpl;
    [discriminate|].
  unfold enum_value at 1, dict_index.
  destruct (dict_get ConversionEnum k) as [name|] eqn:Hk; simpl.
  - intros H. destruct (IH _ H) as (k' & He & Hin & Hk'). exists k'. auto.
  - intros [= <-]. exists k. auto.
Qed.

Lemma convert_loop_unknown (items : dict string) (acc : dict string)
  (k : string) :
  In k (dict_keys items) -> dict_get ConversionEnum k = None ->
  exists e,
    for_fold (fun converted kv =>
                name <- enum_value (fst kv) ;;
                Ok (dict_set converted name (snd kv))) items acc = Raise e.
Proof.
  intros Hin Hk. revert acc.
  induction items as [|[k0 v] items IH]; intros acc; [destruct Hin|].
  cbn [for_fold fst snd]. unfold enum_value at 1, dict_index.
  destruct (dict_get ConversionEnum k0) as [name|] eqn:Hk0; cbn [bind].
  - destruct Hin as [Heq|Hin]; [cbn [fst] in Heq; congruence|].
    now apply IH.
  - eauto.
Qed.

Lemma convert_keys_raise (data : list (dict string)) (e : exn) :
  _convert_keys data = Raise e ->
  exists k row, e = KeyError k /\ In row data /\ dict_mem k row = true /\
                dict_get ConversionEnum k = None.
Proof.
  intros H. apply for_each_raise in H as (row & Hin & H).
  apply convert_loop_raise in H as (k & -> & Hk & Hnone).
  exists k, row. repeat split; auto. now apply dict_mem_In.
Qed.

(** C4.  When some row holds a code that is no member of the enumeration,
    key translation returns nothing: it raises the [KeyError] of a code
    that a row holds and the enumeration lacks. *)
Theorem convert_keys_rejects_unknown_code (data : list (dict string))
  (row : dict string) (k : string) :
  In row data -> dict_mem k row = true -> dict_get ConversionEnum k = None ->
  fails_with is_UnknownFieldError (_convert_keys data) = true /\
  (forall out, _convert_keys data <> Ok out) /\
  exists k' row',
    _convert_keys data = Raise (KeyError k') /\
    In row' data /\ dict_mem k' row' = true /\
    dict_get ConversionEnum k' = None.
Proof.
  intros Hin Hmem Hk.
  assert (Hnot : forall out, _convert_keys data <> Ok out).
  { apply (for_each_not_ok _ _ row Hin). intros y Hy.
    apply dict_mem_In in Hmem.
    destruct (convert_loop_unknown row [] k Hmem Hk) as [e He].
    unfold convert_row, dict_items in Hy. congruence. }
  destruct (_convert_keys data) as [out|e] eqn:E; [now elim (Hnot out)|].
  destruct (convert_keys_raise data e E) as (k' & row' & -> & H1 & H2 & H3).
  split; [reflexivity|]. split; [discriminate|].
  exists k', row'. auto.
Qed.

(** ** Which exceptions the stages raise *)

Lemma for_fold_raise {S A : Type} (body : S -> A -> result S) (xs : list A)
  (s : S) (e : exn) :
  for_fold body xs s = Raise e ->
  exists s' x, In x xs /\ body s' x = Raise e.
Proof.
  revert s. induction xs as [|x rest IH]; intros s; simpl; [discriminate|].
  intros H. apply bind_raise in H as [H | (s' & _ & H)].
  - exists s, x. auto.
  - destruct (IH _ H) as (s'' & x' & Hin & Hx). exists s'', x'. auto.
Qed.

Section Raises.
Context {float_t : Type}.
Variable py_float : string -> option float_t.
Variable date_fromisoformat : string -> option pydate.

Lemma coerce_item_raise (i : dict (value float_t)) (kv : string * string)
  (e : exn) :
  coerce_item py_float date_fromisoformat i kv = Raise e ->
  e = KeyError (fst kv) \/ e = ValueError None.
Proof.
  unfold coerce_item, dict_index, int_of_str, float_of_str, date_of_str.
  destruct (dict_get dtype_dict (fst kv)) as [ty|]; cbn [bind];
    [|intros [= <-]; now left].
  destruct (ty =? "int").
  { destruct (py_int (snd kv)); cbn [bind]; intros [= <-]. now right. }
  destruct (ty =? "float").
  { destruct (py_float (snd kv)); cbn [bind]; intros [= <-]. now right. }
  destruct (ty =? "bool"); [discriminate|].
  destruct (ty =? "date").
  { destruct (date_fromisoformat (snd kv)); cbn [bind]; intros [= <-].
    now right. }
  destruct (ty =? "time"); [|discriminate].
  destruct (_convert_time_string (snd kv)) as [t|e'] eqn:E; cbn [bind];
    intros [= <-].
  right. now apply convert_time_string_raise in E.
Qed.

Lemma coerce_types_raise (data : list (dict string)) (e : exn) :
  _coerce_types py_float date_fromisoformat data = Raise e ->
  is_KeyError e || is_ValueError e = true.
Proof.
  intros H. apply for_each_raise in H as (row & _ & H).
  apply for_fold_raise in H as (i & kv & _ & H).
  apply coerce_item_raise in H as [-> | ->]; reflexivity.
Qed.

Lemma DailySummary_init_raise (kwargs : dict (value float_t)) (e : exn) :
  DailySummary_init kwargs = Raise e -> e = TypeError None.
Proof.
  unfold DailySummary_init. destruct (negb _); congruence.
Qed.
End Raises.

(** ** The top-level call *)

Section Toplevel.
Context {float_t : Type} {json_object : Type}.
Variable py_float : string -> option float_t.
Variable date_fromisoformat : string -> option pydate.
Variable py_str : json_object -> string.
Variable requests_get_json : string -> result (response json_object).

Abbreviation call :=
  (get_daily_summaries py_float date_fromisoformat py_str requests_get_json).
Abbreviation api_call := (_make_api_call py_str requests_get_json).

(** The one URL requested, once the dates are valid. *)
Lemma call_requests (station_id : string) (start_date end_date : date_arg)
  (units : units_arg) (return_raw : bool) (s e : string) :
  _validate_dates start_date end_date = Ok (s, e) ->
  fst (call station_id start_date end_date units return_raw)
  = fst (api_call s e station_id (bind_units units)).
Proof.
  intros Hv. unfold get_daily_summaries. rewrite Hv. reflexivity.
Qed.

Lemma call_outcome (station_id : string) (start_date end_date : date_arg)
  (units : units_arg) (return_raw : bool) (s e : string) :
  _validate_dates start_date end_date = Ok (s, e) ->
  snd (call station_id start_date end_date units return_raw)
  = (raw_data <- snd (api_call s e station_id (bind_units units)) ;;
     if return_raw then Ok (Raw raw_data)
     else
       data <- _convert_keys raw_data ;;
       data <- _coerce_types py_float date_fromisoformat data ;;
       data <- _remap_dictionaries data ;;
       records <- for_each DailySummary_init data ;;
       Ok (Summaries records)).
Proof.
  intros Hv. unfold get_daily_summaries. rewrite Hv. reflexivity.
Qed.

Lemma stages_raise (raw_data : list (dict string)) (e : exn) :
  (data <- _convert_keys raw_data ;;
   data <- _coerce_types py_float date_fromisoformat data ;;
   data <- _remap_dictionaries data ;;
   records <- for_each DailySummary_init data ;;
   Ok (Summaries records)) = Raise e ->
  is_ResponseError e = false.
Proof.
  intros H. apply bind_raise in H as [H | (c & _ & H)].
  { apply convert_keys_raise in H as (k & _ & -> & _). reflexivity. }
  apply bind_raise in H as [H | (t & _ & H)].
  { apply coerce_types_raise in H. destruct e; simpl in *; congruence. }
  apply bind_raise in H as [H | (out & _ & H)].
  { rewrite remap_dictionaries_eq in H. discriminate. }
  apply bind_raise in H as [H | (records & _ & H)]; [|discriminate].
  apply for_each_raise in H as (r & _ & H).
  apply DailySummary_init_raise in H. now subst.
Qed.

(** C5.  Once the dates are valid and the reply to the request is a JSON
    object, the call raises [ResponseError] with a message that ends with
    the rendering of that object; when the reply is a list, the request
    step returns the list, no [ResponseError] is raised, and the list is
    what a raw call returns. *)
Theorem envelope_raises_ResponseError (station_id : string)
  (start_date end_date : date_arg) (units : units_arg) (return_raw : bool)
  (s e url : string) (reply : response json_object) :
  _validate_dates start_date end_date = Ok (s, e) ->
  fst (call station_id start_date end_date units return_raw) = [url] ->
  requests_get_json url = Ok reply ->
  match reply with
  | RespDict content =>
      exists msg,
        snd (call station_id start_date end_date units return_raw)
        = Raise (ResponseError msg) /\
        msg = "API returned the following error: " ++ py_str content /\
        contains (py_str content) msg = true
  | RespList rows =>
      snd (api_call s e station_id (bind_units units)) = Ok rows /\
      fails_with is_ResponseError
        (snd (call station_id start_date end_date units return_raw)) = false /\
      (return_raw = true ->
       snd (call station_id start_date end_date units return_raw)
       = Ok (Raw rows))
  end.
Proof.
  intros Hv Hurl Hreply.
  rewrite (call_requests _ _ _ _ _ s e Hv) in Hurl.
  rewrite (call_outcome _ _ _ _ _ s e Hv).
  unfold _make_api_call in *. cbn [fst snd] in *.
  injection Hurl as Hurl. rewrite Hurl, Hreply. cbn [bind].
  destruct reply as [content|rows].
  - eexists. split; [reflexivity|]. split; [reflexivity|].
    apply contains_suffix.
  - split; [reflexivity|]. cbn [bind]. split.
    + destruct return_raw; [reflexivity|].
      match goal with |- fails_with _ ?r = false => destruct r eqn:E end;
        [reflexivity|].
      simpl. now apply stages_raise in E.
    + intros ->. reflexivity.
Qed.

(** C9.  When the caller leaves [units] out, or passes [None] or the empty
    string, and the dates are valid, the one URL requested carries
    [units=standard]. *)
Theorem absent_units_request_standard (station_id : string)
  (start_date end_date : date_arg) (units : units_arg) (return_raw : bool)
  (s e : string) :
  _validate_dates start_date end_date = Ok (s, e) ->
  absent_or_empty units = true ->
  fst (call station_id start_date end_date units return_raw)
  = [_construct_request_url s e station_id "standard"] /\
  fst (api_call s e station_id (bind_units units))
  = [_construct_request_url s e station_id "standard"] /\
  _construct_request_url s e station_id "standard"
  = _base_url ++ "&startDate=" ++ s ++ "&endDate=" ++ e ++ "&stations="
    ++ station_id ++ "&units=standard&format=json".
Proof.
  intros Hv Hu. rewrite (call_requests _ _ _ _ _ s e Hv).
  assert (H : fst (api_call s e station_id (bind_units units))
              = [_construct_request_url s e station_id "standard"]).
  { unfold _make_api_call. cbn [fst].
    destruct units as [| |u]; simpl in Hu; try reflexivity.
    apply String.eqb_eq in Hu. subst u. reflexivity. }
  repeat split; try exact H. 
Qed.

(** C10.  Two strings of ten characters, the first not greater than the
    second, pass validation unchanged whatever their characters, and the
    request that follows carries them as they are. *)
Theorem validate_dates_checks_length_only (s e : string)
  (station_id : string) (units : units_arg) (return_raw : bool) :
  String.length s = 10 -> String.length e = 10 -> str_le s e = true ->
  _validate_dates (ArgStr s) (ArgStr e) = Ok (s, e) /\
  exists u,
    fst (call station_id (ArgStr s) (ArgStr e) units return_raw)
    = [_base_url ++ "&startDate=" ++ s ++ "&endDate=" ++ e ++ "&stations="
       ++ station_id ++ "&units=" ++ u ++ _format_string].
Proof.
  intros Hs He Hle.
  assert (Hv : _validate_dates (ArgStr s) (ArgStr e) = Ok (s, e)).
  { rewrite (validate_dates_str s e Hs He).
    unfold str_le in Hle. apply negb_true_iff in Hle. now rewrite Hle. }
  split; [exact Hv|].
  rewrite (call_requests _ _ _ _ _ s e Hv).
  eexists. unfold _make_api_call. cbn [fst]. reflexivity.
Qed.
End Toplevel.

(** ** Trimming *)

Section StripFacts.
Variable sp : ascii -> bool.

Lemma lstrip_split (s : string) :
  exists l, s = l ++ lstrip_by sp s /\ all_chars sp l = true.
Proof.
  induction s as [|c s IH]; simpl.
  - exists "". auto.
  - destruct (sp c) eqn:Hc.
    + destruct IH as (l & Hs & Hl). exists (String c l). simpl.
      rewrite Hc, Hl, <- Hs. auto.
    + exists "". auto.
Qed.

Lemma lstrip_app (l s : string) :
  all_chars sp l = true -> lstrip_by sp (l ++ s) = lstrip_by sp s.
Proof.
  induction l as [|c l IH]; simpl; [reflexivity|].
  intros H. apply andb_true_iff in H as [Hc Hl]. rewrite Hc. auto.
Qed.

Lemma rstrip_split (t : string) :
  exists r, t = rstrip_by sp t ++ r /\ all_chars sp r = true.
Proof.
  induction t as [|c t IH]; simpl.
  - exists "". auto.
  - destruct IH as (r & Ht & Hr).
    destruct (rstrip_by sp t) as [|c' kept].
    + simpl in Ht. subst r. destruct (sp c) eqn:Hc.
      * exists (String c t). simpl. rewrite Hc, Hr. auto.
      * exists t. auto.
    + exists r. simpl. rewrite Ht at 1. auto.
Qed.

Lemma rstrip_all (r : string) :
  all_chars sp r = true -> rstrip_by sp r = "".
Proof.
  induction r as [|c r IH]; simpl; [reflexivity|].
  intros H. apply andb_true_iff in H as [Hc Hr].
  rewrite (IH Hr), Hc. reflexivity.
Qed.
End StripFacts.

(** The strings that [strip] turns into ["1"] are the character [1]
    with white space on either side. *)
Lemma strip_one_iff (v : string) :
  strip v = "1" <->
  exists l r, v = l ++ "1" ++ r /\
              all_chars is_space l = true /\ all_chars is_space r = true.
Proof.
  unfold strip, strip_by. split.
  - intros H. destruct (lstrip_split is_space v) as (l & Hv & Hl).
    destruct (rstrip_split is_space (lstrip_by is_space v)) as (r & Ht & Hr).
    rewrite H in Ht. exists l, r. rewrite <- Ht. auto.
  - intros (l & r & -> & Hl & Hr). rewrite lstrip_app by exact Hl.
    change ("1" ++ r) with (String "1" r).
    cbn [lstrip_by]. change (is_space "1") with false. cbv iota.
    cbn [rstrip_by]. rewrite (rstrip_all is_space r Hr). reflexivity.
Qed.

(** ** Boolean fields through the stages *)

Lemma NoDup_map_inj {A B : Type} (f : A -> B) (l : list A) (x y : A) :
  NoDup (map f l) -> In x l -> In y l -> f x = f y -> x = y.
Proof.
  induction l as [|a l IH]; simpl; [tauto|].
  intros Hnd. inversion Hnd as [|? ? Ha Hl]; subst.
  intros [->|Hx] [->|Hy] Heq; auto.
  - exfalso. apply Ha. rewrite Heq. now apply in_map.
  - exfalso. apply Ha. rewrite <- Heq. now apply in_map.
Qed.

(** No two codes translate to the same field name. *)
Lemma enum_injective (c1 c2 name : string) :
  dict_get ConversionEnum c1 = Some name ->
  dict_get ConversionEnum c2 = Some name -> c1 = c2.
Proof.
  intros H1 H2. apply dict_get_In in H1, H2.
  assert (H : (c1, name) = (c2, name)) by
    exact (NoDup_map_inj snd _ _ _ enum_values_distinct H1 H2 eq_refl).
  congruence.
Qed.

Lemma dict_set_keys_distinct {V : Type} (d : dict V) (k : string) (v : V) :
  NoDup (dict_keys d) -> NoDup (dict_keys (dict_set d k v)).
Proof.
  intros Hnd. destruct (in_dec string_dec k (dict_keys d)) as [Hin|Hout].
  - now rewrite dict_keys_set_present.
  - rewrite dict_set_fresh by exact Hout. unfold dict_keys.
    rewrite map_app. apply NoDup_app; [exact Hnd | repeat constructor; auto |].
    intros a Ha [<-|[]]. contradiction.
Qed.

Lemma convert_loop_distinct (items acc res : dict string) :
  for_fold (fun converted kv =>
              name <- enum_value (fst kv) ;;
              Ok (dict_set converted name (snd kv))) items acc = Ok res ->
  NoDup (dict_keys acc) -> NoDup (dict_keys res).
Proof.
  revert acc. induction items as [|[k v] items IH]; intros acc;
    cbn [for_fold fst snd].
  - intros [= <-]. auto.
  - intros H Hnd. apply bind_ok in H as (acc' & Hacc & H).
    apply bind_ok in Hacc as (name & _ & [= <-]).
    apply (IH _ H). now apply dict_set_keys_distinct.
Qed.

(** What the translated row holds at a field name: the value of the one
    code that translates to it, or what was there before the loop. *)
Lemma convert_loop_get (items acc res : dict string) (name : string) :
  for_fold (fun converted kv =>
              name <- enum_value (fst kv) ;;
              Ok (dict_set converted name (snd kv))) items acc = Ok res ->
  NoDup (dict_keys items) ->
  (forall c v, In (c, v) items -> dict_get ConversionEnum c = Some name ->
               dict_get res name = Some v) /\
  ((forall c, In c (dict_keys items) ->
              dict_get ConversionEnum c <> Some name) ->
   dict_get res name = dict_get acc name).
Proof.
  revert acc. induction items as [|[k0 v0] items IH]; intros acc;
    cbn [for_fold fst snd].
  - intros [= <-] _. split; [intros c v []|reflexivity].
  - intros H Hnd. apply bind_ok in H as (acc' & Hacc & H).
    apply bind_ok in Hacc as (name0 & Hname0 & [= <-]).
    unfold enum_value, dict_index in Hname0.
    destruct (dict_get ConversionEnum k0) as [n|] eqn:Hk0; [|discriminate].
    injection Hname0 as ->.
    inversion Hnd as [|? ? Hfresh Hrest]; subst.
    destruct (IH _ H Hrest) as [IHa IHb]. split.
    + intros c v [[= -> ->]|Hin] Hc.
      * assert (name0 = name) as -> by congruence.
        rewrite IHb.
        -- rewrite dict_get_set, String.eqb_refl. reflexivity.
        -- intros c' Hin Hc'. apply Hfresh.
           now rewrite (enum_injective c c' name Hk0 Hc').
      * now apply (IHa c v).
    + intros Hnone. rewrite IHb.
      * rewrite dict_get_set.
        destruct (String.eqb_spec name0 name) as [->|_]; [|reflexivity].
        exfalso. apply (Hnone k0); [now left | exact Hk0].
      * intros c' Hin. apply Hnone. now right.
Qed.

Lemma dtype_dict_get (f : string) :
  dict_get dtype_dict f = option_map __name__ (dict_get __annotations__ f).
Proof.
  rewrite dtype_dict_eq. unfold __annotations__.
  induction DailySummary as [|fld rest IH]; cbn [map dict_get];
    [reflexivity|].
  destruct (fname fld =? f); [reflexivity | exact IH].
Qed.

Lemma Forall2_compose {A B C : Type} (R1 : A -> B -> Prop)
  (R2 : B -> C -> Prop) (xs : list A) (ys : list B) (zs : list C) :
  Forall2 R1 xs ys -> Forall2 R2 ys zs ->
  Forall2 (fun x z => exists y, R1 x y /\ R2 y z) xs zs.
Proof.
  intros H. revert zs. induction H as [|x y xs ys Hxy _ IH]; intros zs Hz;
    inversion Hz; subst; constructor; eauto.
Qed.

Section BooleanFields.
Context {float_t : Type} {json_object : Type}.
Variable py_float : string -> option float_t.
Variable date_fromisoformat : string -> option pydate.
Variable py_str : json_object -> string.
Variable requests_get_json : string -> result (response json_object).

Abbreviation coerce := (coerce_item py_float date_fromisoformat).

(** Coercion of a boolean field never raises. *)
Lemma coerce_item_bool (i : dict (value float_t)) (k v : string) :
  boolean_field k = true ->
  coerce i (k, v)
  = Ok (dict_set i k (VBool (if strip v =? "1" then true else false))).
Proof.
  unfold boolean_field, coerce_item, dict_index. cbn [fst snd].
  rewrite dtype_dict_get.
  destruct (dict_get __annotations__ k) as [[]|]; try discriminate.
  intros _. reflexivity.
Qed.

Lemma coerce_item_shape (i i' : dict (value float_t)) (kv : string * string) :
  coerce i kv = Ok i' -> i' = i \/ exists x, i' = dict_set i (fst kv) x.
Proof.
  unfold coerce_item. intros H. apply bind_ok in H as (ty & _ & H).
  repeat match type of H with
         | (if ?c then _ else _) = _ => destruct c
         | bind _ _ = Ok _ => apply bind_ok in H as (? & _ & H)
         end;
    injection H as <-; eauto.
Qed.

Lemma coerce_loop_other (items : dict string) (st res : dict (value float_t))
  (f : string) :
  for_fold coerce items st = Ok res ->
  ~ In f (dict_keys items) -> dict_get res f = dict_get st f.
Proof.
  revert st. induction items as [|[k v] items IH]; intros st;
    cbn [for_fold].
  - intros [= <-] _. reflexivity.
  - intros H Hout. apply bind_ok in H as (st' & Hst & H).
    rewrite (IH _ H) by (intros Hin; apply Hout; now right).
    apply coerce_item_shape in Hst as [->|[x ->]]; [reflexivity|].
    rewrite dict_get_set. cbn [fst].
    destruct (String.eqb_spec k f) as [->|_]; [|reflexivity].
    exfalso. apply Hout. now left.
Qed.

Lemma coerce_loop_keys (items : dict string) (st res : dict (value float_t)) :
  for_fold coerce items st = Ok res ->
  incl (dict_keys items) (dict_keys st) -> dict_keys res = dict_keys st.
Proof.
  revert st. induction items as [|[k v] items IH]; intros st;
    cbn [for_fold].
  - intros [= <-] _. reflexivity.
  - intros H Hincl. apply bind_ok in H as (st' & Hst & H).
    assert (Hkeys : dict_keys st' = dict_keys st).
    { apply coerce_item_shape in Hst as [->|[x ->]]; [reflexivity|].
      apply dict_keys_set_present, Hincl. now left. }
    rewrite (IH _ H); [exact Hkeys|].
    rewrite Hkeys. intros a Ha. apply Hincl. now right.
Qed.

Lemma coerce_loop_bool (items : dict string) (st res : dict (value float_t))
  (f v : string) :
  for_fold coerce items st = Ok res ->
  NoDup (dict_keys items) -> In (f, v) items -> boolean_field f = true ->
  dict_get res f = Some (VBool (if strip v =? "1" then true else false)).
Proof.
  revert st. induction items as [|[k0 v0] items IH]; intros st;
    cbn [for_fold]; [intros _ _ []|].
  intros H Hnd Hin Hf. apply bind_ok in H as (st' & Hst & H).
  inversion Hnd as [|? ? Hfresh Hrest]; subst.
  destruct Hin as [[= -> ->]|Hin].
  - rewrite (coerce_loop_other _ _ _ f H Hfresh).
    rewrite (coerce_item_bool st f v Hf) in Hst. injection Hst as <-.
    rewrite dict_get_set, String.eqb_refl. reflexivity.
  - exact (IH _ H Hrest Hin Hf).
Qed.

Lemma coerce_row_keys (crow : dict string) (trow : dict (value float_t)) :
  coerce_row py_float date_fromisoformat crow = Ok trow ->
  dict_keys trow = dict_keys crow.
Proof.
  unfold coerce_row, dict_items. intros H.
  assert (Hk : dict_keys (map (fun kv : string * string =>
                                 (fst kv, @VStr float_t (snd kv))) crow)
               = dict_keys crow).
  { unfold dict_keys. rewrite map_map. reflexivity. }
  rewrite (coerce_loop_keys _ _ _ H); [exact Hk|].
  rewrite Hk. apply incl_refl.
Qed.

Lemma init_get (kwargs record : dict (value float_t)) (f : string)
  (x : value float_t) :
  DailySummary_init kwargs = Ok record ->
  In f field_names -> dict_get kwargs f = Some x ->
  dict_get record f = Some x.
Proof.
  unfold DailySummary_init, field_names. destruct (negb _); [discriminate|].
  intros H Hin Hx. apply Ok_inj in H. subst record. revert Hin.
  generalize DailySummary as fields.
  induction fields as [|fld rest IH]; cbn [map dict_get In]; [tauto|].
  destruct (String.eqb_spec (fname fld) f) as [Heq|Hne].
  - intros _. now rewrite Heq, Hx.
  - intros [Heq|Hin]; [contradiction | exact (IH Hin)].
Qed.

Lemma boolean_field_is_field (f : string) :
  boolean_field f = true -> In f field_names.
Proof.
  unfold boolean_field. intros H.
  assert (Hin : In f (dict_keys __annotations__)).
  { apply dict_mem_In, dict_mem_get.
    destruct (dict_get __annotations__ f); [eauto | discriminate]. }
  unfold __annotations__, dict_keys in Hin. rewrite map_map in Hin.
  exact Hin.
Qed.

(** One row through translation, coercion, normalization and the
    constructor. *)
Lemma row_boolean_fields (row crow : dict string)
  (trow out record : dict (value float_t)) (f : string) :
  NoDup (dict_keys row) ->
  convert_row row = Ok crow ->
  coerce_row py_float date_fromisoformat crow = Ok trow ->
  remap_row template trow = Ok out ->
  DailySummary_init out = Ok record ->
  boolean_field f = true ->
  (forall c v, enum_value c = Ok f -> dict_get row c = Some v ->
     dict_get record f
     = Some (VBool (if strip v =? "1" then true else false))) /\
  ((forall c, enum_value c = Ok f -> dict_mem c row = false) ->
   dict_get record f = Some (VBool false)).
Proof.
  intros Hnd Hc Ht Ho Hr Hf.
  pose proof (boolean_field_is_field f Hf) as Hfield.
  rewrite remap_row_eq in Ho by apply template_distinct.
  apply Ok_inj in Ho. subst out.
  assert (Hout : dict_get (map (filled trow) (@template float_t)) f
                 = Some (match dict_get trow f with
                         | Some v => v
                         | None => VBool false
                         end)).
  { rewrite dict_get_filled, template_get. unfold boolean_field in Hf.
    destruct (dict_get __annotations__ f) as [[]|]; try discriminate.
    reflexivity. }
  unfold convert_row, dict_items in Hc.
  destruct (convert_loop_get row [] crow f Hc Hnd) as [Hpresent Habsent].
  assert (Hcnd : NoDup (dict_keys crow)).
  { apply (convert_loop_distinct row [] crow Hc). constructor. }
  split.
  - intros c v Hcode Hv. apply (init_get _ _ _ _ Hr Hfield).
    rewrite Hout.
    assert (Hcrow : dict_get crow f = Some v).
    { apply (Hpresent c v); [now apply dict_get_In|].
      unfold enum_value, dict_index in Hcode.
      destruct (dict_get ConversionEnum c); congruence. }
    unfold coerce_row, dict_items in Ht.
    rewrite (coerce_loop_bool crow _ trow f v Ht Hcnd
               (dict_get_In _ _ _ Hcrow) Hf).
    reflexivity.
  - intros Hnone. apply (init_get _ _ _ _ Hr Hfield). rewrite Hout.
    assert (Hcrow : dict_get crow f = None).
    { rewrite Habsent; [reflexivity|].
      intros c Hin Hcode.
      assert (Hmem : dict_mem c row = false).
      { apply Hnone. unfold enum_value, dict_index. now rewrite Hcode. }
      apply dict_mem_false, dict_get_None in Hmem. contradiction. }
    apply dict_get_None in Hcrow. rewrite <- (coerce_row_keys _ _ Ht) in Hcrow.
    apply dict_get_None in Hcrow. rewrite Hcrow. reflexivity.
Qed.

(** C2.  When the call returns summaries for the rows received, a boolean
    field whose code a row holds is [True] exactly when the text, trimmed
    of white space, is ["1"], and [False] for any other text; a boolean
    field whose code the row does not hold is [False]. *)
Theorem boolean_fields_follow_the_one_convention (station_id : string)
  (start_date end_date : date_arg) (units : units_arg) (url : string)
  (rows : list (dict string)) (records : list (dict (value float_t))) :
  get_daily_summaries py_float date_fromisoformat py_str requests_get_json
    station_id start_date end_date units false
  = ([url], Ok (Summaries records)) ->
  requests_get_json url = Ok (RespList rows) ->
  Forall (fun row => distinct (dict_keys row) = true) rows ->
  Forall2
    (fun row record =>
       forall f, boolean_field f = true ->
         (forall c v, enum_value c = Ok f -> dict_get row c = Some v ->
            exists b,
              dict_get record f = Some (VBool b) /\
              (b = true <-> strip v = "1") /\
              (b = false <-> strip v <> "1")) /\
         ((forall c, enum_value c = Ok f -> dict_mem c row = false) ->
          dict_get record f = Some (VBool false)))
    rows records.
Proof.
  intros Hcall Hreply Hdistinct.
  unfold get_daily_summaries in Hcall.
  destruct (_validate_dates start_date end_date) as [[s e]|x];
    [|discriminate].
  unfold _make_api_call in Hcall. injection Hcall as Hurl Hcall.
  rewrite Hurl, Hreply in Hcall. cbn [bind] in Hcall.
  apply bind_ok in Hcall as (cdata & Hc & Hcall).
  apply bind_ok in Hcall as (tdata & Ht & Hcall).
  apply bind_ok in Hcall as (odata & Ho & Hcall).
  apply bind_ok in Hcall as (recs & Hr & [= <-]).
  apply for_each_ok in Hc, Ht, Ho, Hr.
  pose proof (Forall2_compose _ _ _ _ _
                (Forall2_compose _ _ _ _ _
                   (Forall2_compose _ _ _ _ _ Hc Ht) Ho) Hr) as Hall.
  clear Hc Ht Ho Hr Hreply. revert Hdistinct.
  induction Hall as [|row record rows recs Hrow _ IH]; intros Hdistinct;
    [constructor|].
  inversion Hdistinct as [|? ? Hd Hds]; subst.
  constructor; [|exact (IH Hds)].
  destruct Hrow as (out & (trow & (crow & Hc & Ht) & Ho) & Hr).
  apply distinct_NoDup in Hd. intros f Hf.
  destruct (row_boolean_fields row crow trow out record f Hd Hc Ht Ho Hr Hf)
    as [Hpresent Habsent].
  split; [|exact Habsent].
  intros c v Hcode Hv. eexists. split; [exact (Hpresent c v Hcode Hv)|].
  destruct (String.eqb_spec (strip v) "1") as [Heq|Hne].
  - split; split; congruence.
  - split; split; congruence.
Qed.
End BooleanFields.

(** ** The model on concrete inputs *)

Example strip_examples :
  map strip [" 1 "; "1"; "  "; ""; " a b "; "01"]
  = ["1"; "1"; ""; ""; "a b"; "01"].
Proof. reflexivity. Qed.

Example py_int_examples :
  map py_int [" 1 "; "+1"; "-1"; "1_2"; "_1"; "1__2"; "1_"; "+ 1"; "0012";
              ""; "+"; "-0"; "1.0"]
  = [Some 1; Some 1; Some (-1); Some 12; None; None; None; None; Some 12;
     None; None; Some 0; None]%Z.
Proof. reflexivity. Qed.

Example convert_time_string_examples :
  map _convert_time_string [" 1230"; "01230"; "00005"; "02359"; "0130"; "12";
                            "1230"; "0930"; "0061"; "ab"; ""]
  = [Ok (mk_time 12 30 0 0); Ok (mk_time 12 30 0 0); Ok (mk_time 0 5 0 0);
     Ok (mk_time 23 59 0 0);
     Ok (mk_time 13 30 0 0); Ok (mk_time 12 12 0 0); Raise (ValueError None);
     Raise (ValueError None); Raise (ValueError None);
     Raise (ValueError None); Raise (ValueError None)].
Proof. reflexivity. Qed.

Example validate_dates_examples :
  _validate_dates (ArgStr "2020-06-01") (ArgStr "2020-05-01")
  = Raise (ValueError (Some "Start date must be before end date.")) /\
  _validate_dates (ArgStr "2020-6-1") (ArgStr "2020-05-01")
  = Raise (ValueError (Some "Start date must be in the form YYYY-MM-DD.")) /\
  _validate_dates ArgOther (ArgStr "2020-05-01")
  = Raise (TypeError (Some "Start date must be a string or datetime object."))
  /\
  _validate_dates (ArgStr "2020-13-99") (ArgStr "abcdefghij")
  = Ok ("2020-13-99", "abcdefghij") /\
  _validate_dates (ArgDate (mk_date 2020 5 1)) (ArgStr "2020-05-02")
  = Ok ("2020-05-01", "2020-05-02").
Proof. repeat split. Qed.

Example sample_call_requests_once :
  fst (SampleRun.call_rows UnitsOmitted false) = [SampleRun.url].
Proof. reflexivity. Qed.

Example sample_first_record :
  map (fun r => (dict_get r "max_temp", dict_get r "fog",
                 dict_get r "thunder", dict_get r "rain",
                 dict_get r "peak_gust_time", dict_get r "avg_wind"))
      SampleRun.records
  = [ (Some (VInt 310), Some (VBool true), Some (VBool false),
       Some (VBool false), Some (VTime (mk_time 12 30 0 0)), Some VNone);
      (Some VNone, Some (VBool false), Some (VBool true), Some (VBool false),
       Some VNone, Some VNone) ].
Proof. reflexivity. Qed.

(** ** The properties at concrete inputs *)

Lemma boolean_fields_follow_the_one_convention_witness :
  SampleRun.call_rows UnitsOmitted false
  = ([SampleRun.url], Ok (Summaries SampleRun.records)) /\
  Sample.serve_rows SampleRun.url = Ok (RespList Sample.rows) /\
  Forall (fun row => distinct (dict_keys row) = true) Sample.rows /\
  Forall2
    (fun row record =>
       forall f, boolean_field f = true ->
         (forall c v, enum_value c = Ok f -> dict_get row c = Some v ->
            exists b,
              dict_get record f = Some (@VBool string b) /\
              (b = true <-> strip v = "1") /\
              (b = false <-> strip v <> "1")) /\
         ((forall c, enum_value c = Ok f -> dict_mem c row = false) ->
          dict_get record f = Some (VBool false)))
    Sample.rows SampleRun.records.
Proof.
  assert (H1 : SampleRun.call_rows UnitsOmitted false
               = ([SampleRun.url], Ok (Summaries SampleRun.records)))
    by (vm_compute; reflexivity).
  assert (H2 : Sample.serve_rows SampleRun.url = Ok (RespList Sample.rows))
    by reflexivity.
  assert (H3 : Forall (fun row => distinct (dict_keys row) = true)
                 Sample.rows)
    by (repeat constructor).
  split; [exact H1|]. split; [exact H2|]. split; [exact H3|].
  exact (boolean_fields_follow_the_one_convention
           Sample.py_float Sample.date_fromisoformat Sample.py_str
           Sample.serve_rows "USW00024233" (ArgStr "2020-05-01")
           (ArgStr "2020-05-02") UnitsOmitted SampleRun.url Sample.rows
           SampleRun.records H1 H2 H3).
Defined.

Lemma convert_keys_rejects_unknown_code_witness :
  In [("TMIN", "280"); ("WT10", "1")] SampleRun.rows_with_unknown_code /\
  dict_mem "WT10" [("TMIN", "280"); ("WT10", "1")] = true /\
  dict_get ConversionEnum "WT10" = None /\
  fails_with is_UnknownFieldError
    (_convert_keys SampleRun.rows_with_unknown_code) = true.
Proof.
  assert (H1 : In [("TMIN", "280"); ("WT10", "1")]
                  SampleRun.rows_with_unknown_code)
    by (right; left; reflexivity).
  assert (H2 : dict_mem "WT10" [("TMIN", "280"); ("WT10", "1")] = true)
    by reflexivity.
  assert (H3 : dict_get ConversionEnum "WT10" = None) by reflexivity.
  split; [exact H1|]. split; [exact H2|]. split; [exact H3|].
  exact (proj1 (convert_keys_rejects_unknown_code _ _ _ H1 H2 H3)).
Defined.

Lemma envelope_raises_ResponseError_witness :
  _validate_dates (ArgStr "2020-05-01") (ArgStr "2020-05-02")
  = Ok ("2020-05-01", "2020-05-02") /\
  fst (SampleRun.call_error UnitsOmitted false) = [SampleRun.url] /\
  Sample.serve_error SampleRun.url = Ok (RespDict Sample.envelope) /\
  exists msg,
    snd (SampleRun.call_error UnitsOmitted false) = Raise (ResponseError msg) /\
    msg = "API returned the following error: " ++ Sample.envelope /\
    contains Sample.envelope msg = true.
Proof.
  assert (H1 : _validate_dates (ArgStr "2020-05-01") (ArgStr "2020-05-02")
               = Ok ("2020-05-01", "2020-05-02")) by reflexivity.
  assert (H2 : fst (SampleRun.call_error UnitsOmitted false)
               = [SampleRun.url]) by reflexivity.
  assert (H3 : Sample.serve_error SampleRun.url
               = Ok (RespDict Sample.envelope)) by reflexivity.
  split; [exact H1|]. split; [exact H2|]. split; [exact H3|].
  exact (envelope_raises_ResponseError
           Sample.py_float Sample.date_fromisoformat Sample.py_str
           Sample.serve_error "USW00024233" (ArgStr "2020-05-01")
           (ArgStr "2020-05-02") UnitsOmitted false "2020-05-01" "2020-05-02"
           SampleRun.url (RespDict Sample.envelope) H1 H2 H3).
Defined.

Lemma absent_non_boolean_field_is_None_witness :
  nth_error [[("max_temp", @VInt string 310)]] 0
  = Some [("max_temp", VInt 310)] /\
  non_boolean_field "station" = true /\
  dict_mem "station" [("max_temp", @VInt string 310)] = false /\
  exists out r,
    _remap_dictionaries [[("max_temp", @VInt string 310)]] = Ok out /\
    nth_error out 0 = Some r /\
    dict_get r "station" = Some VNone.
Proof.
  assert (H1 : nth_error [[("max_temp", @VInt string 310)]] 0
               = Some [("max_temp", VInt 310)]) by reflexivity.
  assert (H2 : non_boolean_field "station" = true) by reflexivity.
  assert (H3 : dict_mem "station" [("max_temp", @VInt string 310)] = false)
    by reflexivity.
  split; [exact H1|]. split; [exact H2|]. split; [exact H3|].
  destruct (absent_non_boolean_field_is_None _ _ _ _ H1 H2 H3)
    as (out & r & Hout & Hr & Hget & _).
  exists out, r. auto.
Defined.

Lemma validate_dates_fails_iff_start_after_end_witness :
  String.length "2020-06-01" = 10 /\ String.length "2020-05-01" = 10 /\
  (fails_with is_ValidationError
     (_validate_dates (ArgStr "2020-06-01") (ArgStr "2020-05-01")) = true
   <-> str_gt "2020-06-01" "2020-05-01" = true).
Proof.
  split; [reflexivity|]. split; [reflexivity|].
  exact (proj1 (validate_dates_fails_iff_start_after_end
                  "2020-06-01" "2020-05-01" eq_refl eq_refl)).
Defined.

Lemma remap_complete_unchanged_witness :
  Forall (fun r => complete r = true) [SampleRun.reversed] /\
  exists out,
    _remap_dictionaries [SampleRun.reversed] = Ok out /\
    Forall2 (fun r r' =>
               same_dict r' r /\
               (forall k, dict_get r' k = dict_get r k) /\
               (dict_keys r = field_names -> r' = r))
            [SampleRun.reversed] out.
Proof.
  assert (H : Forall (fun r : dict (value string) => complete r = true)
                [SampleRun.reversed])
    by (repeat constructor).
  split; [exact H|].
  exact (remap_complete_unchanged [SampleRun.reversed] H).
Defined.

Lemma absent_units_request_standard_witness :
  _validate_dates (ArgStr "2020-05-01") (ArgStr "2020-05-02")
  = Ok ("2020-05-01", "2020-05-02") /\
  absent_or_empty (UnitsStr "") = true /\
  fst (SampleRun.call_rows (UnitsStr "") false)
  = [_construct_request_url "2020-05-01" "2020-05-02" "USW00024233"
       "standard"].
Proof.
  split; [reflexivity|]. split; [reflexivity|].
  exact (proj1 (absent_units_request_standard
                  Sample.py_float Sample.date_fromisoformat Sample.py_str
                  Sample.serve_rows "USW00024233" (ArgStr "2020-05-01")
                  (ArgStr "2020-05-02") (UnitsStr "") false
                  "2020-05-01" "2020-05-02" eq_refl eq_refl)).
Defined.

Lemma validate_dates_checks_length_only_witness :
  String.length "2020-13-99" = 10 /\ String.length "abcdefghij" = 10 /\
  str_le "2020-13-99" "abcdefghij" = true /\
  _validate_dates (ArgStr "2020-13-99") (ArgStr "abcdefghij")
  = Ok ("2020-13-99", "abcdefghij").
Proof.
  split; [reflexivity|]. split; [reflexivity|]. split; [reflexivity|].
  exact (proj1 (validate_dates_checks_length_only
                  Sample.py_float Sample.date_fromisoformat Sample.py_str
                  Sample.serve_rows "2020-13-99" "abcdefghij" "USW00024233"
                  UnitsOmitted false eq_refl eq_refl eq_refl)).
Defined.

(** * Further properties *)

(** ** Date validation: order of the checks *)

(** X1.  The start date is checked before the end date: a start string of the
    wrong length or a start object of an unsupported class decides the
    error whatever the end date is; the end date is examined only once the
    start date is accepted. *)
Theorem validate_dates_first_bad_argument_decides (s : string) :
  String.length s <> 10 ->
  (forall end_date,
     _validate_dates (ArgStr s) end_date
     = Raise (ValueError (Some "Start date must be in the form YYYY-MM-DD.")))
  /\
  (forall end_date,
     _validate_dates ArgOther end_date
     = Raise (TypeError
                (Some "Start date must be a string or datetime object.")))
  /\
  (forall start_date s0,
     validate_one start_date "Start date must be in the form YYYY-MM-DD."
       "Start date must be a string or datetime object." = Ok s0 ->
     _validate_dates start_date (ArgStr s)
     = Raise (ValueError (Some "End date must be in the form YYYY-MM-DD."))
     /\
     _validate_dates start_date ArgOther
     = Raise (TypeError
                (Some "End date must be a string or datetime object."))).
Proof.
  intros Hlen.
  assert (Hbad : (String.length s =? 10)%nat = false)
    by now apply Nat.eqb_neq.
  split; [|split].
  - intros end_date. unfold _validate_dates. cbn [validate_one].
    rewrite Hbad. reflexivity.
  - intros end_date. reflexivity.
  - intros start_date s0 Hstart. unfold _validate_dates. rewrite Hstart.
    cbn [bind validate_one]. rewrite Hbad. split; reflexivity.
Qed.

(** ** Dates as objects *)

Lemma append_assoc (a b c : string) : (a ++ b) ++ c = a ++ (b ++ c).
Proof. induction a as [|x a IH]; simpl; [reflexivity | now rewrite IH]. Qed.

Lemma zfill_acc (w : nat) (n : N) (acc : string) :
  zfill w n acc = zfill w n "" ++ acc.
Proof.
  revert n acc. induction w as [|w IH]; intros n acc; simpl; [reflexivity|].
  rewrite (IH _ (String _ acc)), (IH _ (String _ "")).
  rewrite append_assoc. reflexivity.
Qed.

Lemma length_append (a b : string) :
  String.length (a ++ b) = String.length a + String.length b.
Proof. induction a as [|c a IH]; simpl; [reflexivity | now rewrite IH]. Qed.

Lemma zfill_length (w : nat) (n : N) : String.length (zfill w n "") = w.
Proof.
  revert n. induction w as [|w IH]; intros n; simpl; [reflexivity|].
  rewrite zfill_acc, length_append, IH. simpl. lia.
Qed.

Lemma compare_append (a c b d : string) :
  String.length a = String.length c ->
  String.compare (a ++ b) (c ++ d)
  = match String.compare a c with Eq => String.compare b d | r => r end.
Proof.
  revert c. induction a as [|x a IH]; intros [|y c]; simpl; try discriminate.
  - reflexivity.
  - intros [= Hlen]. destruct (Ascii.compare x y); auto.
Qed.

Lemma compare_digit_chars (x y : N) :
  (x < 10)%N -> (y < 10)%N ->
  Ascii.compare (ascii_of_N (48 + x)) (ascii_of_N (48 + y)) = (x ?= y)%N.
Proof.
  intros Hx Hy. unfold Ascii.compare.
  rewrite !N_ascii_embedding by lia.
  destruct (N.compare_spec x y);
    [apply N.compare_eq_iff | change (48 + x < 48 + y)%N
    | change (48 + x > 48 + y)%N]; lia.
Qed.

Lemma compare_decimal (q q' r r' : N) :
  (r < 10)%N -> (r' < 10)%N ->
  (10 * q + r ?= 10 * q' + r')%N
  = match (q ?= q')%N with Eq => (r ?= r')%N | c => c end.
Proof.
  intros Hr Hr'.
  destruct (N.compare_spec q q') as [Heq|Hlt|Hgt].
  - destruct (N.compare_spec r r');
      [apply N.compare_eq_iff | change (10 * q + r < 10 * q' + r')%N
      | change (10 * q + r > 10 * q' + r')%N]; lia.
  - change (10 * q + r < 10 * q' + r')%N. lia.
  - change (10 * q + r > 10 * q' + r')%N. lia.
Qed.

Lemma compare_by_last_digit (n m : N) :
  (n ?= m)%N
  = match (n / 10 ?= m / 10)%N with
    | Eq => (n mod 10 ?= m mod 10)%N
    | r => r
    end.
Proof.
  rewrite (N.div_mod n 10) at 1 by discriminate.
  rewrite (N.div_mod m 10) at 1 by discriminate.
  apply compare_decimal; apply N.mod_lt; discriminate.
Qed.

(** Zero-padded numbers of the same width compare as the numbers do. *)
Lemma compare_zfill (w : nat) (n m : N) :
  String.compare (zfill w n "") (zfill w m "")
  = (n mod 10 ^ N.of_nat w ?= m mod 10 ^ N.of_nat w)%N.
Proof.
  revert n m. induction w as [|w IH]; intros n m.
  - simpl. now rewrite !N.mod_1_r.
  - cbn [zfill]. rewrite (zfill_acc w (n / 10)), (zfill_acc w (m / 10)).
    rewrite compare_append by now rewrite !zfill_length.
    rewrite IH. cbn [String.compare].
    rewrite compare_digit_chars by (apply N.mod_lt; lia).
    rewrite (compare_by_last_digit (n mod 10 ^ N.of_nat (S w))).
    assert (Hpow : (10 ^ N.of_nat (S w) = 10 * 10 ^ N.of_nat w)%N).
    { rewrite Nat2N.inj_succ, N.pow_succ_r'. reflexivity. }
    assert (Hpos : (10 ^ N.of_nat w <> 0)%N) by (apply N.pow_nonzero; lia).
    assert (Hdiv : forall k, ((k mod 10 ^ N.of_nat (S w)) / 10
                              = (k / 10) mod 10 ^ N.of_nat w)%N).
    { intros k. rewrite Hpow, N.Div0.mod_mul_r. symmetry.
      apply (N.div_unique _ _ _ (k mod 10)%N); [apply N.mod_lt; lia | lia]. }
    assert (Hmod : forall k, ((k mod 10 ^ N.of_nat (S w)) mod 10
                              = k mod 10)%N).
    { intros k. rewrite Hpow, N.Div0.mod_mul_r. symmetry.
      apply (N.mod_unique _ _ ((k / 10) mod 10 ^ N.of_nat w)%N);
        [apply N.mod_lt; lia | lia]. }
    rewrite !Hdiv, !Hmod.
    destruct (_ ?= _)%N; [|reflexivity|reflexivity].
    destruct (_ ?= _)%N; reflexivity.
Qed.

Lemma date_isoformat_length (d : pydate) :
  String.length (date_isoformat d) = 10.
Proof.
  unfold date_isoformat. rewrite !length_append, !zfill_length. reflexivity.
Qed.

Lemma date_isoformat_order (a b : pydate) :
  is_date a = true -> is_date b = true ->
  str_gt (date_isoformat a) (date_isoformat b) = date_after a b.
Proof.
  unfold is_date, str_gt, date_after, date_isoformat. intros Ha Hb.
  repeat (apply andb_true_iff in Ha as [Ha ?]).
  repeat (apply andb_true_iff in Hb as [Hb ?]).
  repeat match goal with
         | H : (_ <=? _)%N = true |- _ => apply N.leb_le in H
         end.
  rewrite compare_append by now rewrite !zfill_length.
  rewrite (compare_zfill 4 (year a) (year b)).
  rewrite (N.mod_small (year a)), (N.mod_small (year b)) by (simpl; lia).
  destruct (year a ?= year b)%N; try reflexivity.
  cbn [append String.compare].
  change (Ascii.compare "-" "-") with Eq. cbv iota.
  rewrite compare_append by now rewrite !zfill_length.
  rewrite (compare_zfill 2 (month a) (month b)).
  rewrite (N.mod_small (month a)), (N.mod_small (month b)) by (simpl; lia).
  destruct (month a ?= month b)%N; try reflexivity.
  cbn [append String.compare].
  change (Ascii.compare "-" "-") with Eq. cbv iota.
  rewrite (compare_zfill 2 (day a) (day b)).
  rewrite (N.mod_small (day a)), (N.mod_small (day b)) by (simpl; lia).
  reflexivity.
Qed.

(** X2.  Two [datetime.date] arguments are compared as days: validation fails
    exactly when the start is a later day than the end, and otherwise
    returns their ISO forms, ten characters each. *)
Theorem validate_dates_compares_days (a b : pydate) :
  is_date a = true -> is_date b = true ->
  _validate_dates (ArgDate a) (ArgDate b)
  = (if date_after a b
     then Raise (ValueError (Some "Start date must be before end date."))
     else Ok (date_isoformat a, date_isoformat b)) /\
  String.length (date_isoformat a) = 10 /\
  String.length (date_isoformat b) = 10.
Proof.
  intros Ha Hb. split; [|split; apply date_isoformat_length].
  unfold _validate_dates. cbn [validate_one bind].
  now rewrite (date_isoformat_order a b Ha Hb).
Qed.

Lemma validate_dates_compares_days_witness :
  is_date SampleMore.june_first = true /\
  is_date SampleMore.may_first = true /\
  _validate_dates (ArgDate SampleMore.june_first)
    (ArgDate SampleMore.may_first)
  = Raise (ValueError (Some "Start date must be before end date.")).
Proof.
  split; [reflexivity|]. split; [reflexivity|].
  exact (proj1 (validate_dates_compares_days SampleMore.june_first
                  SampleMore.may_first eq_refl eq_refl)).
Defined.

Lemma validate_dates_first_bad_argument_decides_witness :
  String.length "2020-6-1" <> 10 /\
  _validate_dates (ArgStr "2020-6-1") ArgOther
  = Raise (ValueError (Some "Start date must be in the form YYYY-MM-DD.")).
Proof.
  assert (H : String.length "2020-6-1" <> 10) by (simpl; lia).
  split; [exact H|].
  exact (proj1 (validate_dates_first_bad_argument_decides "2020-6-1" H)
           ArgOther).
Defined.

(** ** A [datetime] argument *)

Lemma str_gt_longer (p x : string) (c : ascii) :
  str_gt (p ++ String c x) p = true.
Proof.
  apply str_gt_lexicographic. right. exists c, x. reflexivity.
Qed.

Lemma str_gt_shorter (p x : string) : str_gt p (p ++ x) = false.
Proof.
  unfold str_gt. induction p as [|c p IH]; simpl.
  - destruct x; reflexivity.
  - unfold Ascii.compare. rewrite N.compare_refl. exact IH.
Qed.

(** X3.  A [datetime.datetime] takes the branch of [datetime.date] and is
    rendered with its time of day: the string returned for it is the day
    followed by ["T"] and at least eight more characters, not the ten
    characters of a day.  So a [datetime] start is rejected against an end
    that is the same day given as a date or as its ten-character string,
    while the same day as start is accepted against the [datetime]. *)
Theorem validate_dates_keeps_time_of_datetime (t : pydatetime) :
  let day_text := date_isoformat (dt_date t) in
  (exists clock, datetime_isoformat t = day_text ++ String "T" clock /\
                 8 <= String.length clock) /\
  _validate_dates (ArgDatetime t) (ArgDate (dt_date t))
  = Raise (ValueError (Some "Start date must be before end date.")) /\
  _validate_dates (ArgDatetime t) (ArgStr day_text)
  = Raise (ValueError (Some "Start date must be before end date.")) /\
  _validate_dates (ArgDate (dt_date t)) (ArgDatetime t)
  = Ok (day_text, datetime_isoformat t) /\
  _validate_dates (ArgDatetime t) (ArgDatetime t)
  = Ok (datetime_isoformat t, datetime_isoformat t).
Proof.
  intros day_text.
  assert (Hiso : exists clock,
             datetime_isoformat t = day_text ++ String "T" clock /\
             8 <= String.length clock).
  { unfold datetime_isoformat. fold day_text. eexists. split.
    - cbn [append]. reflexivity.
    - rewrite !length_append, !zfill_length. simpl. lia. }
  split; [exact Hiso|].
  destruct Hiso as (clock & Hiso & _).
  assert (Hlen : String.length day_text = 10)
    by apply date_isoformat_length.
  unfold _validate_dates. cbn [validate_one bind]. fold day_text.
  rewrite Hlen. cbn [Nat.eqb negb bind].
  rewrite Hiso, str_gt_longer, str_gt_shorter, str_gt_irrefl.
  repeat split.
Qed.

(** ** The request URL *)

(** X4.  Arguments are interpolated as they are, with no escaping: what follows
    an ["&units="] inside the station identifier reads in the URL as the
    units, so two different calls can build the same URL. *)
Theorem construct_request_url_does_not_escape
  (start_date end_date station_id units x : string) :
  _construct_request_url start_date end_date
    (station_id ++ "&units=" ++ x) units
  = _construct_request_url start_date end_date station_id
      (x ++ "&units=" ++ units).
Proof.
  unfold _construct_request_url.
  repeat (rewrite ?append_assoc; cbn [append]). reflexivity.
Qed.

(** ** Requests made by the top-level call *)

Section Requests.
Context {float_t : Type} {json_object : Type}.
Variable py_float : string -> option float_t.
Variable date_fromisoformat : string -> option pydate.
Variable py_str : json_object -> string.
Variable requests_get_json : string -> result (response json_object).

Abbreviation top :=
  (get_daily_summaries py_float date_fromisoformat py_str requests_get_json).

(** X5.  A call whose dates are rejected raises the error of the validation and
    requests nothing; any other call requests exactly one URL, built from
    the validated dates. *)
Theorem call_requests_once_or_never (station_id : string)
  (start_date end_date : date_arg) (units : units_arg) (return_raw : bool) :
  (exists x,
     _validate_dates start_date end_date = Raise x /\
     top station_id start_date end_date units return_raw = ([], Raise x))
  \/
  (exists s e u,
     _validate_dates start_date end_date = Ok (s, e) /\
     fst (top station_id start_date end_date units return_raw)
     = [_construct_request_url s e station_id u]).
Proof.
  unfold get_daily_summaries.
  destruct (_validate_dates start_date end_date) as [[s e]|x].
  - right. exists s, e. eexists. split; [reflexivity|].
    unfold _make_api_call. reflexivity.
  - left. exists x. auto.
Qed.

(** X6.  What the transport raises reaches the caller unchanged, for a raw
    call and for a converted one. *)
Theorem call_propagates_transport_error (station_id : string)
  (start_date end_date : date_arg) (units : units_arg) (return_raw : bool)
  (url : string) (x : exn) :
  fst (top station_id start_date end_date units return_raw) = [url] ->
  requests_get_json url = Raise x ->
  snd (top station_id start_date end_date units return_raw) = Raise x.
Proof.
  unfold get_daily_summaries.
  destruct (_validate_dates start_date end_date) as [[s e]|y];
    [|discriminate].
  unfold _make_api_call. cbn [fst snd]. intros [= ->] Hx.
  rewrite Hx. reflexivity.
Qed.

(** X7.  A non-empty [units] is sent as it is: its value is not checked against
    ["standard"] and ["metric"]. *)
Theorem call_sends_units_unchecked (station_id : string)
  (start_date end_date : date_arg) (u : string) (return_raw : bool)
  (s e : string) :
  _validate_dates start_date end_date = Ok (s, e) ->
  u <> "" ->
  fst (top station_id start_date end_date (UnitsStr u) return_raw)
  = [_base_url ++ "&startDate=" ++ s ++ "&endDate=" ++ e ++ "&stations="
     ++ station_id ++ "&units=" ++ u ++ "&format=json"].
Proof.
  intros Hv Hu. unfold get_daily_summaries. rewrite Hv.
  unfold _make_api_call, bind_units, py_not. cbn [fst].
  apply String.eqb_neq in Hu. rewrite Hu. reflexivity.
Qed.
End Requests.

Lemma call_propagates_transport_error_witness :
  fst (get_daily_summaries Sample.py_float Sample.date_fromisoformat
         Sample.py_str SampleMore.serve_failure "USW00024233"
         (ArgStr "2020-05-01") (ArgStr "2020-05-02") UnitsOmitted false)
  = [SampleRun.url] /\
  SampleMore.serve_failure SampleRun.url = Raise TransportError /\
  snd (get_daily_summaries Sample.py_float Sample.date_fromisoformat
         Sample.py_str SampleMore.serve_failure "USW00024233"
         (ArgStr "2020-05-01") (ArgStr "2020-05-02") UnitsOmitted false)
  = Raise TransportError.
Proof.
  split; [reflexivity|]. split; [reflexivity|].
  exact (call_propagates_transport_error Sample.py_float
           Sample.date_fromisoformat Sample.py_str SampleMore.serve_failure
           "USW00024233" (ArgStr "2020-05-01") (ArgStr "2020-05-02")
           UnitsOmitted false SampleRun.url TransportError eq_refl eq_refl).
Defined.

Lemma call_sends_units_unchecked_witness :
  _validate_dates (ArgStr "2020-05-01") (ArgStr "2020-05-02")
  = Ok ("2020-05-01", "2020-05-02") /\
  "kelvin" <> "" /\
  fst (SampleRun.call_rows (UnitsStr "kelvin") false)
  = [_base_url ++ "&startDate=" ++ "2020-05-01" ++ "&endDate="
     ++ "2020-05-02" ++ "&stations=" ++ "USW00024233" ++ "&units="
     ++ "kelvin" ++ "&format=json"].
Proof.
  assert (H : "kelvin" <> "") by discriminate.
  split; [reflexivity|]. split; [exact H|].
  exact (call_sends_units_unchecked Sample.py_float
           Sample.date_fromisoformat Sample.py_str Sample.serve_rows
           "USW00024233" (ArgStr "2020-05-01") (ArgStr "2020-05-02")
           "kelvin" false "2020-05-01" "2020-05-02" eq_refl H).
Defined.

(** ** Key translation on known codes *)

Lemma translate_known (k name : string) :
  dict_get ConversionEnum k = Some name -> translate k = name.
Proof. unfold translate. now intros ->. Qed.

Lemma convert_rename_loop (row pre suf : dict string) :
  row = (pre ++ suf)%list -> NoDup (dict_keys row) ->
  (forall k, In k (dict_keys row) -> dict_mem k ConversionEnum = true) ->
  for_fold (fun converted kv =>
              name <- enum_value (fst kv) ;;
              Ok (dict_set converted name (snd kv)))
           suf (map (fun kv => (translate (fst kv), snd kv)) pre)
  = Ok (map (fun kv => (translate (fst kv), snd kv)) row).
Proof.
  intros Hrow Hnd Hknown. revert pre Hrow.
  induction suf as [|[k v] suf IH]; intros pre Hrow.
  - cbn [for_fold]. now rewrite Hrow, app_nil_r.
  - cbn [for_fold fst snd].
    assert (Hin : In k (dict_keys row)).
    { rewrite Hrow. unfold dict_keys. rewrite map_app. apply in_or_app.
      right. now left. }
    destruct (proj1 (dict_mem_get _ _) (Hknown k Hin)) as [name Hname].
    unfold enum_value at 1, dict_index. rewrite Hname. cbn [bind].
    assert (Hfresh : ~ In name
                       (dict_keys (map (fun kv : string * string =>
                                          (translate (fst kv), snd kv)) pre))).
    { unfold dict_keys. rewrite map_map. cbn [fst]. intros Hdup.
      apply in_map_iff in Hdup as ([k' v'] & Hk' & Hpre). cbn [fst] in Hk'.
      assert (Hin' : In k' (dict_keys row)).
      { rewrite Hrow. unfold dict_keys. rewrite map_app. apply in_or_app.
        left. change k' with (fst (k', v')). now apply in_map. }
      destruct (proj1 (dict_mem_get _ _) (Hknown k' Hin')) as [name' Hname'].
      rewrite (translate_known _ _ Hname') in Hk'. subst name'.
      assert (k' = k) as -> by exact (enum_injective _ _ _ Hname' Hname).
      rewrite Hrow in Hnd. unfold dict_keys in Hnd. rewrite map_app in Hnd.
      cbn [map fst] in Hnd. apply NoDup_remove_2 in Hnd. apply Hnd.
      apply in_or_app. left. change k with (fst (k, v')). now apply in_map. }
    rewrite (dict_set_fresh _ _ _ Hfresh).
    replace (map (fun kv : string * string => (translate (fst kv), snd kv))
               pre ++ [(name, v)])%list
      with (map (fun kv : string * string => (translate (fst kv), snd kv))
              (pre ++ [(k, v)])%list).
    + apply IH. rewrite <- app_assoc. exact Hrow.
    + rewrite map_app. cbn [map fst snd].
      now rewrite (translate_known _ _ Hname).
Qed.

(** X8.  Rows whose codes are all members of the enumeration are translated in
    place: as many rows, each with as many items, in the same order, every
    code replaced by its field name and every value kept as it is. *)
Theorem convert_keys_renames_in_place (data : list (dict string)) :
  Forall (fun row => distinct (dict_keys row) = true) data ->
  Forall (fun row => forallb (fun k => dict_mem k ConversionEnum)
                             (dict_keys row) = true) data ->
  _convert_keys data
  = Ok (map (map (fun kv => (translate (fst kv), snd kv))) data).
Proof.
  intros Hd Hk. unfold _convert_keys. apply for_each_ok.
  induction data as [|row data IH]; [constructor|].
  inversion Hd as [|? ? Hd1 Hd2]; inversion Hk as [|? ? Hk1 Hk2]; subst.
  rewrite map_cons. constructor; [|exact (IH Hd2 Hk2)].
  apply distinct_NoDup in Hd1. rewrite forallb_forall in Hk1.
  exact (convert_rename_loop row [] row eq_refl Hd1 Hk1).
Qed.

Lemma convert_keys_renames_in_place_witness :
  Forall (fun row => distinct (dict_keys row) = true) Sample.rows /\
  Forall (fun row => forallb (fun k => dict_mem k ConversionEnum)
                             (dict_keys row) = true) Sample.rows /\
  _convert_keys Sample.rows = Ok SampleMore.translated.
Proof.
  assert (H1 : Forall (fun row => distinct (dict_keys row) = true)
                 Sample.rows) by (repeat constructor).
  assert (H2 : Forall (fun row => forallb (fun k => dict_mem k ConversionEnum)
                                    (dict_keys row) = true) Sample.rows)
    by (repeat constructor).
  split; [exact H1|]. split; [exact H2|].
  exact (convert_keys_renames_in_place Sample.rows H1 H2).
Defined.

(** ** Coercion: keys *)

Lemma for_fold_never_ok {S A : Type} (body : S -> A -> result S)
  (xs : list A) (x : A) :
  In x xs -> (forall s s', body s x <> Ok s') ->
  forall s res, for_fold body xs s <> Ok res.
Proof.
  intros Hin Hx. induction xs as [|y xs IH]; [destruct Hin|].
  intros s res H. cbn [for_fold] in H.
  apply bind_ok in H as (s' & Hs' & H).
  destruct Hin as [->|Hin]; [exact (Hx _ _ Hs') | exact (IH Hin _ _ H)].
Qed.

Lemma field_has_dtype (k : string) :
  In k field_names <-> exists ty, dict_get dtype_dict k = Some ty.
Proof.
  rewrite dtype_dict_get.
  assert (Hkeys : dict_keys __annotations__ = field_names).
  { unfold __annotations__, dict_keys, field_names. now rewrite map_map. }
  rewrite <- Hkeys, <- dict_mem_In, dict_mem_get. split.
  - intros [a Ha]. rewrite Ha. simpl. eauto.
  - intros [ty Hty]. destruct (dict_get __annotations__ k); [eauto|].
    discriminate.
Qed.

Section CoercionKeys.
Context {float_t : Type}.
Variable py_float : string -> option float_t.
Variable date_fromisoformat : string -> option pydate.

Abbreviation coerce_rows := (_coerce_types py_float date_fromisoformat).
Abbreviation coerce1 := (coerce_item py_float date_fromisoformat).

Lemma coerce_item_KeyError (i : dict (value float_t))
  (kv : string * string) (k : string) :
  coerce1 i kv = Raise (KeyError k) -> ~ In (fst kv) field_names.
Proof.
  intros H Hin. apply field_has_dtype in Hin as [ty Hty].
  unfold coerce_item, dict_index, int_of_str, float_of_str, date_of_str in H.
  rewrite Hty in H. cbn [bind] in H.
  repeat match type of H with
         | (if ?c then _ else _) = _ => destruct c
         | bind (match ?o with Some _ => _ | None => _ end) _ = _ =>
             destruct o; cbn [bind] in H
         | bind (_convert_time_string ?v) _ = _ =>
             let E := fresh "E" in
             destruct (_convert_time_string v) eqn:E; cbn [bind] in H;
             [|apply convert_time_string_raise in E; subst]
         end;
    discriminate.
Qed.

(** X9.  A key that is no field of the dataclass makes coercion fail: the
    lookup of its type raises, so rows that were not translated first are
    not coerced. *)
Theorem coerce_types_rejects_unknown_field (data : list (dict string))
  (row : dict string) (k : string) :
  In row data -> In k (dict_keys row) -> ~ In k field_names ->
  (forall out, coerce_rows data <> Ok out) /\
  (forall v i, coerce1 i (k, v) = Raise (KeyError k)).
Proof.
  intros Hrow Hk Hfield.
  assert (Hnone : dict_get dtype_dict k = None).
  { destruct (dict_get dtype_dict k) as [ty|] eqn:E; [|reflexivity].
    exfalso. apply Hfield, field_has_dtype. eauto. }
  assert (Hitem : forall v i, coerce1 i (k, v) = Raise (KeyError k)).
  { intros v i. unfold coerce_item, dict_index. cbn [fst].
    now rewrite Hnone. }
  split; [|exact Hitem].
  apply (for_each_not_ok _ _ row Hrow). intros t Ht.
  apply in_map_iff in Hk as ([k' v] & Hk' & Hin). cbn [fst] in Hk'.
  subst k'. unfold coerce_row, dict_items in Ht.
  apply (for_fold_never_ok _ _ (k, v) Hin) in Ht; [exact Ht|].
  intros s s'. rewrite Hitem. discriminate.
Qed.

(** X10.  Coercion keeps the shape of its input: as many rows, and in each row
    the same keys in the same order. *)
Theorem coerce_types_keeps_keys (data : list (dict string))
  (out : list (dict (value float_t))) :
  coerce_rows data = Ok out ->
  length out = length data /\
  Forall2 (fun row typed => dict_keys typed = dict_keys row) data out.
Proof.
  intros H. apply for_each_ok in H. split.
  - symmetry. exact (Forall2_length H).
  - induction H as [|row typed data out Hrow _ IH]; constructor; [|exact IH].
    exact (coerce_row_keys py_float date_fromisoformat row typed Hrow).
Qed.

Lemma convert_then_coerce_raise (raw data : list (dict string))
  (e : exn) :
  _convert_keys raw = Ok data ->
  coerce_rows data = Raise e ->
  e = ValueError None.
Proof.
  intros Hc He. apply for_each_ok in Hc.
  apply for_each_raise in He as (crow & Hin & He).
  apply for_fold_raise in He as (i & kv & Hkv & He).
  destruct (coerce_item_raise _ _ _ _ _ He) as [-> | ->]; [|reflexivity].
  exfalso. apply coerce_item_KeyError in He. apply He.
  assert (Hvalues : forall row crow',
             convert_row row = Ok crow' ->
             forall k, In k (dict_keys crow') -> In k field_names).
  { intros row crow' Hrow k Hk. apply enum_values_are_fields.
    unfold convert_row, dict_items in Hrow.
    assert (Hgen : forall (items acc res : dict string),
               for_fold (fun converted kv0 =>
                           name <- enum_value (fst kv0) ;;
                           Ok (dict_set converted name (snd kv0)))
                        items acc = Ok res ->
               forall k0, In k0 (dict_keys res) ->
                          In k0 (dict_keys acc)
                          \/ In k0 (map snd ConversionEnum)).
    { induction items as [|[c v] items IH]; intros acc res Hres k0 Hk0.
      - cbn [for_fold] in Hres. apply Ok_inj in Hres. subst. now left.
      - cbn [for_fold fst snd] in Hres.
        apply bind_ok in Hres as (acc' & Hacc & Hres).
        apply bind_ok in Hacc as (name & Hname & Hacc).
        apply Ok_inj in Hacc. subst acc'.
        destruct (IH _ _ Hres k0 Hk0) as [Hk1|Hk1]; [|now right].
        apply dict_mem_In, dict_mem_get in Hk1 as [x Hx].
        rewrite dict_get_set in Hx.
        destruct (String.eqb_spec name k0) as [<-|_].
        + right. unfold enum_value, dict_index in Hname.
          destruct (dict_get ConversionEnum c) as [n|] eqn:Hc0;
            [|discriminate].
          apply Ok_inj in Hname. subst n. apply dict_get_In in Hc0.
          change name with (snd (c, name)). now apply in_map.
        + left. apply dict_mem_In, dict_mem_get. eauto. }
    destruct (Hgen _ _ _ Hrow k Hk) as [[]|Hv]. exact Hv. }
  clear He. revert Hin.
  induction Hc as [|row crow' raw data Hrow _ IH]; [intros []|].
  intros [->|Hin]; [|exact (IH Hin)].
  apply (Hvalues row crow Hrow). unfold dict_items in Hkv.
  now apply in_map.
Qed.

(** X11.  After key translation coercion finds the type of every key: the only
    error it can raise is the [ValueError] of a text that does not
    parse. *)
Theorem coerce_after_convert_raises_ValueError (raw data : list (dict string))
  (e : exn) :
  _convert_keys raw = Ok data ->
  coerce_rows data = Raise e ->
  e = ValueError None.
Proof. exact (convert_then_coerce_raise raw data e). Qed.
End CoercionKeys.

Lemma coerce_types_rejects_unknown_field_witness :
  In [("TMAX", "310")] [[("TMAX", "310")]] /\
  In "TMAX" (dict_keys [("TMAX", "310")]) /\
  ~ In "TMAX" field_names /\
  forall out,
    _coerce_types Sample.py_float Sample.date_fromisoformat
      [[("TMAX", "310")]] <> Ok out.
Proof.
  assert (H1 : In [("TMAX", "310")] [[("TMAX", "310")]]) by (now left).
  assert (H2 : In "TMAX" (dict_keys [("TMAX", "310")])) by (now left).
  assert (H3 : ~ In "TMAX" field_names).
  { intros H. apply existsb_eqb_In in H. vm_compute in H. discriminate. }
  split; [exact H1|]. split; [exact H2|]. split; [exact H3|].
  exact (proj1 (coerce_types_rejects_unknown_field Sample.py_float
                  Sample.date_fromisoformat _ _ _ H1 H2 H3)).
Defined.

Lemma coerce_types_keeps_keys_witness :
  _coerce_types Sample.py_float Sample.date_fromisoformat
    SampleMore.translated
  = Ok [ [("date", VDate (mk_date 2020 5 1)); ("max_temp", VInt 310);
          ("fog", VBool true);
          ("peak_gust_time", VTime (mk_time 12 30 0 0))];
         [("station", VStr "USW00024233"); ("thunder", VBool true);
          ("rain", VBool false)] ] /\
  Forall2 (fun row typed => dict_keys typed = dict_keys row)
    SampleMore.translated
    [ [("date", VDate (mk_date 2020 5 1)); ("max_temp", VInt 310);
       ("fog", @VBool string true);
       ("peak_gust_time", VTime (mk_time 12 30 0 0))];
      [("station", VStr "USW00024233"); ("thunder", VBool true);
       ("rain", VBool false)] ].
Proof.
  assert (H : _coerce_types Sample.py_float Sample.date_fromisoformat
                SampleMore.translated
              = Ok [ [("date", VDate (mk_date 2020 5 1));
                      ("max_temp", VInt 310); ("fog", VBool true);
                      ("peak_gust_time", VTime (mk_time 12 30 0 0))];
                     [("station", VStr "USW00024233");
                      ("thunder", VBool true); ("rain", VBool false)] ])
    by (vm_compute; reflexivity).
  split; [exact H|].
  exact (proj2 (coerce_types_keeps_keys Sample.py_float
                  Sample.date_fromisoformat _ _ H)).
Defined.

Lemma coerce_after_convert_raises_ValueError_witness :
  _convert_keys [[("TMAX", "warm")]] = Ok [[("max_temp", "warm")]] /\
  _coerce_types Sample.py_float Sample.date_fromisoformat
    [[("max_temp", "warm")]] = Raise (ValueError None) /\
  ValueError None = ValueError None.
Proof.
  assert (H1 : _convert_keys [[("TMAX", "warm")]]
               = Ok [[("max_temp", "warm")]]) by reflexivity.
  assert (H2 : _coerce_types Sample.py_float Sample.date_fromisoformat
                 [[("max_temp", "warm")]] = Raise (ValueError None))
    by reflexivity.
  split; [exact H1|]. split; [exact H2|].
  exact (coerce_after_convert_raises_ValueError Sample.py_float
           Sample.date_fromisoformat _ _ _ H1 H2).
Defined.

(** ** Coercion: values *)

Section CoercionValues.
Context {float_t : Type} {json_object : Type}.
Variable py_float : string -> option float_t.
Variable date_fromisoformat : string -> option pydate.
Variable py_str : json_object -> string.
Variable requests_get_json : string -> result (response json_object).

Abbreviation step := (coerce_item py_float date_fromisoformat).
Abbreviation typed := (coerced py_float date_fromisoformat).

(** One item: the outcome for each annotation. *)
Lemma coerce_item_cases (i : dict (value float_t)) (k v : string)
  (a : annotation) :
  dict_get __annotations__ k = Some a ->
  match step i (k, v) with
  | Ok i' =>
      match a with
      | Astr => i' = i
      | _ => exists x, i' = dict_set i k x /\ typed a v x
      end
  | Raise e => e = ValueError None /\ forall x, ~ typed a v x
  end.
Proof.
  intros Ha. unfold coerce_item, dict_index, int_of_str, float_of_str,
    date_of_str. cbn [fst snd]. rewrite dtype_dict_get, Ha.
  destruct a; cbn [option_map __name__ bind coerced];
    repeat match goal with
           | |- context [(?x =? ?y)%string] =>
               let b := eval vm_compute in (x =? y)%string in
               change (x =? y)%string with b; cbv iota
           end.
  - destruct (date_fromisoformat v) as [d|] eqn:E; cbn [bind].
    + eauto.
    + split; [reflexivity|]. intros x (d & Hd & _). congruence.
  - reflexivity.
  - destruct (py_int v) as [n|] eqn:E; cbn [bind].
    + eauto.
    + split; [reflexivity|]. intros x (n & Hn & _). congruence.
  - destruct (py_float v) as [y|] eqn:E; cbn [bind].
    + eauto.
    + split; [reflexivity|]. intros x (y & Hy & _). congruence.
  - eauto.
  - destruct (_convert_time_string v) as [t|e] eqn:E; cbn [bind].
    + eauto.
    + split; [now apply convert_time_string_raise in E|].
      intros x (t & Ht & _). congruence.
Qed.


Lemma coerce_item_value (i i' : dict (value float_t)) (k v : string)
  (a : annotation) :
  step i (k, v) = Ok i' ->
  dict_get __annotations__ k = Some a ->
  dict_get i k = Some (VStr v) ->
  exists x, dict_get i' k = Some x /\ typed a v x.
Proof.
  intros Hstep Ha Hi. pose proof (coerce_item_cases i k v a Ha) as H.
  rewrite Hstep in H.
  destruct a;
    try (destruct H as (x & -> & Hx); exists x;
         rewrite dict_get_set, String.eqb_refl; now split).
  subst i'. exists (VStr v). now split.
Qed.

Lemma coerce_loop_value (items : dict string) (st res : dict (value float_t))
  (f v : string) (a : annotation) :
  for_fold step items st = Ok res ->
  NoDup (dict_keys items) -> In (f, v) items ->
  dict_get __annotations__ f = Some a ->
  (forall k' v', In (k', v') items -> dict_get st k' = Some (VStr v')) ->
  exists x, dict_get res f = Some x /\ typed a v x.
Proof.
  revert st. induction items as [|[k0 v0] items IH]; intros st;
    cbn [for_fold]; [intros _ _ []|].
  intros H Hnd Hin Ha Hst. apply bind_ok in H as (st' & Hstep & H).
  inversion Hnd as [|? ? Hfresh Hrest]; subst.
  destruct Hin as [Heq|Hin].
  - injection Heq as -> ->.
    rewrite (coerce_loop_other py_float date_fromisoformat _ _ _ f H Hfresh).
    apply (coerce_item_value st st' f v a Hstep Ha).
    apply Hst. now left.
  - apply (IH st' H Hrest Hin Ha). intros k' v' Hin'.
    assert (Hne : k0 <> k').
    { intros ->. apply Hfresh. change k' with (fst (k', v')).
      now apply in_map. }
    apply (coerce_item_shape py_float date_fromisoformat) in Hstep
      as [->|[x ->]].
    + apply Hst. now right.
    + rewrite dict_get_set. cbn [fst].
      destruct (String.eqb_spec k0 k') as [->|_]; [contradiction|].
      apply Hst. now right.
Qed.

Lemma coerce_row_value (crow : dict string) (trow : dict (value float_t))
  (f v : string) (a : annotation) :
  coerce_row py_float date_fromisoformat crow = Ok trow ->
  NoDup (dict_keys crow) -> dict_get crow f = Some v ->
  dict_get __annotations__ f = Some a ->
  exists x, dict_get trow f = Some x /\ typed a v x.
Proof.
  unfold coerce_row, dict_items. intros H Hnd Hv Ha.
  apply (coerce_loop_value crow _ trow f v a H Hnd (dict_get_In _ _ _ Hv) Ha).
  intros k' v' Hin. apply In_dict_get.
  - unfold dict_keys. rewrite map_map. exact Hnd.
  - apply (in_map (fun kv : string * string => (fst kv, @VStr float_t (snd kv)))
             _ _ Hin).
Qed.

(** A record whose keys are the field names is a valid argument list of
    the constructor, and the instance holds exactly its items. *)
Lemma init_normalized (r : dict (value float_t)) :
  dict_keys r = field_names -> DailySummary_init r = Ok r.
Proof.
  intros Hkeys. unfold DailySummary_init.
  assert (Hsub : subset (dict_keys r) field_names = true).
  { rewrite Hkeys. apply subset_incl, incl_refl. }
  rewrite Hsub. cbn [negb]. f_equal.
  assert (Hnd : NoDup (dict_keys r))
    by (rewrite Hkeys; exact field_names_distinct).
  etransitivity; [|symmetry; exact (dict_as_lookups r VNone Hnd)].
  rewrite Hkeys.
  unfold field_names. rewrite map_map. apply map_ext_in.
  intros fld Hin. f_equal.
  assert (Hk : In (fname fld) (dict_keys r)).
  { rewrite Hkeys. now apply in_map. }
  apply dict_mem_In, dict_mem_get in Hk as [x Hx]. now rewrite Hx.
Qed.

Lemma normalized_keys (i : dict (value float_t)) :
  dict_keys (map (filled i) (@template float_t)) = field_names.
Proof. rewrite filled_keys. apply template_keys. Qed.

(** The stages after the request, when they all return. *)
Lemma stages_ok (rows : list (dict string))
  (records : list (dict (value float_t))) :
  (data <- _convert_keys rows ;;
   data <- _coerce_types py_float date_fromisoformat data ;;
   data <- _remap_dictionaries data ;;
   records <- for_each DailySummary_init data ;;
   Ok (Summaries records)) = Ok (Summaries records) ->
  Forall2 (fun row record =>
             exists crow trow,
               convert_row row = Ok crow /\
               coerce_row py_float date_fromisoformat crow = Ok trow /\
               record = map (filled trow) template)
          rows records.
Proof.
  intros H.
  apply bind_ok in H as (cdata & Hc & H).
  apply bind_ok in H as (tdata & Ht & H).
  apply bind_ok in H as (odata & Ho & H).
  apply bind_ok in H as (recs & Hr & H).
  apply Ok_inj in H. injection H as <-.
  rewrite remap_dictionaries_eq in Ho. apply Ok_inj in Ho. subst odata.
  apply for_each_ok in Hc, Ht, Hr.
  revert cdata tdata recs Hc Ht Hr.
  induction rows as [|row rows IH]; intros cdata tdata recs Hc Ht Hr.
  - inversion Hc; subst. inversion Ht; subst. inversion Hr. constructor.
  - inversion Hc as [|? crow ? cdata' Hc1 Hc2]; subst.
    inversion Ht as [|? trow ? tdata' Ht1 Ht2]; subst.
    rewrite map_cons in Hr.
    inversion Hr as [|? record ? records' Hr1 Hr2]; subst.
    constructor; [|exact (IH _ _ _ Hc2 Ht2 Hr2)].
    exists crow, trow. split; [exact Hc1|]. split; [exact Ht1|].
    rewrite init_normalized in Hr1 by apply normalized_keys.
    apply Ok_inj in Hr1. now subst.
Qed.

(** X13.  Every value a row holds reaches the summary under its field name,
    converted as the annotation of the field says: an [int] field holds
    [int] of the text, a [float] field [float] of it, a [bool] field
    whether the stripped text is ["1"], a [date] field the parsed date, a
    [time] field the decoded time, a [str] field the text itself. *)
Theorem call_returns_typed_values (station_id : string)
  (start_date end_date : date_arg) (units : units_arg) (url : string)
  (rows : list (dict string)) (records : list (dict (value float_t))) :
  get_daily_summaries py_float date_fromisoformat py_str requests_get_json
    station_id start_date end_date units false
  = ([url], Ok (Summaries records)) ->
  requests_get_json url = Ok (RespList rows) ->
  Forall (fun row => distinct (dict_keys row) = true) rows ->
  Forall2
    (fun row record =>
       forall c f a v,
         enum_value c = Ok f -> dict_get __annotations__ f = Some a ->
         dict_get row c = Some v ->
         exists x, dict_get record f = Some x /\ typed a v x)
    rows records.
Proof.
  intros Hcall Hreply Hdistinct.
  unfold get_daily_summaries in Hcall.
  destruct (_validate_dates start_date end_date) as [[s e]|x];
    [|discriminate].
  unfold _make_api_call in Hcall. injection Hcall as Hurl Hcall.
  rewrite Hurl, Hreply in Hcall. cbn [bind] in Hcall.
  apply stages_ok in Hcall. clear Hreply Hurl. revert Hdistinct.
  induction Hcall as [|row record rows records Hrow _ IH]; intros Hdistinct;
    [constructor|].
  inversion Hdistinct as [|? ? Hd Hds]; subst.
  constructor; [|exact (IH Hds)].
  destruct Hrow as (crow & trow & Hc & Ht & ->).
  apply distinct_NoDup in Hd. intros c f a v Hcode Ha Hv.
  unfold convert_row, dict_items in Hc.
  destruct (convert_loop_get row [] crow f Hc Hd) as [Hpresent _].
  assert (Hcrow : dict_get crow f = Some v).
  { apply (Hpresent c v); [now apply dict_get_In|].
    unfold enum_value, dict_index in Hcode.
    destruct (dict_get ConversionEnum c); congruence. }
  assert (Hcnd : NoDup (dict_keys crow)).
  { apply (convert_loop_distinct row [] crow Hc). constructor. }
  destruct (coerce_row_value crow trow f v a Ht Hcnd Hcrow Ha)
    as (x & Hx & Htyped).
  exists x. split; [|exact Htyped].
  rewrite dict_get_filled, template_get, Ha, Hx. reflexivity.
Qed.
End CoercionValues.

(** ** Integer literals *)

Lemma digit_is_no_space (c : ascii) :
  is_digit c = true -> is_int_space c = false.
Proof.
  destruct c as [[] [] [] [] [] [] [] []]; intros H; try reflexivity;
    vm_compute in H; discriminate.
Qed.

Lemma digit_value_range (c : ascii) :
  is_digit c = true -> (0 <= digit_value c <= 9)%Z.
Proof.
  destruct c as [[] [] [] [] [] [] [] []]; intros H;
    vm_compute in H; try discriminate; vm_compute; split; discriminate.
Qed.

Lemma int_digits_all (s : string) (acc : Z) (after_digit : bool) :
  all_chars is_digit s = true -> s <> "" \/ after_digit = true ->
  int_digits acc after_digit s = Some (decimal_value acc s).
Proof.
  revert acc after_digit. induction s as [|c s IH]; intros acc b Hall Hne.
  - destruct Hne as [Hne| ->]; [contradiction | reflexivity].
  - cbn [all_chars] in Hall. apply andb_true_iff in Hall as [Hc Hs].
    cbn [int_digits decimal_value]. rewrite Hc. apply IH; auto.
Qed.

Lemma rstrip_digits (s : string) :
  all_chars is_digit s = true -> rstrip_by is_int_space s = s.
Proof.
  induction s as [|c s IH]; [reflexivity|].
  cbn [all_chars rstrip_by]. intros H. apply andb_true_iff in H as [Hc Hs].
  rewrite (IH Hs). destruct s; [|reflexivity].
  now rewrite (digit_is_no_space c Hc).
Qed.

Lemma py_int_digits (s : string) :
  all_chars is_digit s = true -> s <> "" ->
  py_int s = Some (decimal_value 0 s).
Proof.
  intros Hall Hne. destruct s as [|c s]; [contradiction|].
  pose proof Hall as Hall'. cbn [all_chars] in Hall'.
  apply andb_true_iff in Hall' as [Hc Hs].
  unfold py_int, strip_by. cbn [lstrip_by].
  rewrite (digit_is_no_space c Hc), (rstrip_digits _ Hall).
  rewrite <- (int_digits_all (String c s) 0 false Hall (or_introl Hne)).
  destruct c as [[] [] [] [] [] [] [] []]; try reflexivity;
    vm_compute in Hc; discriminate.
Qed.

Lemma py_int_leading_space (s : string) : py_int (String " " s) = py_int s.
Proof. reflexivity. Qed.

Lemma digit_zero (c : ascii) :
  is_digit c = true -> digit_value c = 0%Z -> c = "0"%char.
Proof.
  destruct c as [[] [] [] [] [] [] [] []]; intros H H0;
    vm_compute in H; try discriminate; vm_compute in H0; try discriminate;
    reflexivity.
Qed.

Lemma datetime_time_in_range (h m : Z) :
  (0 <= h <= 23)%Z -> (0 <= m <= 59)%Z ->
  datetime_time h m = Ok (mk_time h m 0 0).
Proof. intros Hh Hm. apply datetime_time_ok. auto. Qed.

Lemma datetime_time_bad_hour (h m : Z) :
  (23 < h)%Z -> datetime_time h m = Raise (ValueError None).
Proof.
  intros Hh. unfold datetime_time.
  destruct (Z.leb_spec h 23); [lia|]. now rewrite andb_false_r.
Qed.

(** ** Time codes of fixed width *)

(** X18.  A code of five characters, a space or a zero followed by four digits
    [HHMM], is decoded as hour [HH] and minute [MM]. *)
Theorem convert_time_string_reads_padded_code (pad a b c d : ascii) :
  pad = " "%char \/ pad = "0"%char ->
  is_digit a = true -> is_digit b = true ->
  is_digit c = true -> is_digit d = true ->
  let code := String pad (String a (String b (String c (String d "")))) in
  let hh := (10 * digit_value a + digit_value b)%Z in
  let mm := (10 * digit_value c + digit_value d)%Z in
  _convert_time_string code = datetime_time hh mm /\
  ((hh <= 23)%Z -> (mm <= 59)%Z ->
   _convert_time_string code = Ok (mk_time hh mm 0 0)).
Proof.
  intros Hpad Ha Hb Hc Hd code hh mm.
  assert (Hcode : _convert_time_string code = datetime_time hh mm).
  { unfold _convert_time_string, int_of_str.
    change (py_slice code None (Some 3%Z))
      with (String pad (String a (String b ""))).
    change (py_slice code (Some (-2)%Z) None) with (String c (String d "")).
    assert (Hh : py_int (String pad (String a (String b ""))) = Some hh).
    { destruct Hpad as [-> | ->].
      - rewrite py_int_leading_space, py_int_digits;
          [|cbn [all_chars]; now rewrite Ha, Hb|discriminate].
        cbn [decimal_value]. apply f_equal. unfold hh. lia.
      - rewrite py_int_digits;
          [|cbn [all_chars]; now rewrite Ha, Hb|discriminate].
        cbn [decimal_value]. change (digit_value "0") with 0%Z.
        apply f_equal. unfold hh. lia. }
    assert (Hm : py_int (String c (String d "")) = Some mm).
    { rewrite py_int_digits;
        [|cbn [all_chars]; now rewrite Hc, Hd|discriminate].
      cbn [decimal_value]. apply f_equal. unfold mm. lia. }
    rewrite Hh, Hm. reflexivity. }
  split; [exact Hcode|].
  intros Hhh Hmm. rewrite Hcode.
  pose proof (digit_value_range a Ha). pose proof (digit_value_range b Hb).
  pose proof (digit_value_range c Hc). pose proof (digit_value_range d Hd).
  apply datetime_time_in_range; unfold hh, mm in *; lia.
Qed.

(** X19.  A code of four digits [HHMM] is not decoded as [HH:MM]: the hour is
    read from its first three digits and the minute from its last two, the
    third digit counting twice; unless the first digit is a zero the call
    fails. *)
Theorem convert_time_string_misreads_four_digits (a b c d : ascii) :
  is_digit a = true -> is_digit b = true ->
  is_digit c = true -> is_digit d = true ->
  let code := String a (String b (String c (String d ""))) in
  _convert_time_string code
  = datetime_time (100 * digit_value a + 10 * digit_value b + digit_value c)
                  (10 * digit_value c + digit_value d) /\
  (a <> "0"%char -> _convert_time_string code = Raise (ValueError None)).
Proof.
  intros Ha Hb Hc Hd code.
  assert (Hcode : _convert_time_string code
                  = datetime_time
                      (100 * digit_value a + 10 * digit_value b
                       + digit_value c)
                      (10 * digit_value c + digit_value d)).
  { unfold _convert_time_string, int_of_str.
    change (py_slice code None (Some 3%Z))
      with (String a (String b (String c ""))).
    change (py_slice code (Some (-2)%Z) None) with (String c (String d "")).
    rewrite !py_int_digits;
      try discriminate;
      try (cbn [all_chars]; now rewrite ?Ha, ?Hb, ?Hc, ?Hd).
    cbn [decimal_value bind]. apply f_equal2; lia. }
  split; [exact Hcode|].
  intros Hnz. rewrite Hcode. apply datetime_time_bad_hour.
  pose proof (digit_value_range a Ha). pose proof (digit_value_range b Hb).
  pose proof (digit_value_range c Hc).
  assert (digit_value a <> 0%Z) by (intros Hz; now apply Hnz, digit_zero).
  lia.
Qed.

(** X20.  On a text of at most two characters both slices are the whole text:
    hour and minute are the same number. *)
Theorem convert_time_string_short_text (s : string) :
  String.length s <= 2 ->
  py_slice s None (Some 3%Z) = s /\
  py_slice s (Some (-2)%Z) None = s /\
  _convert_time_string s = (n <- int_of_str s ;; datetime_time n n).
Proof.
  intros Hlen.
  assert (H3 : py_slice s None (Some 3%Z) = s).
  { unfold py_slice, slice_index. change (3 <? 0)%Z with false. cbv iota.
    change (Z.to_nat 0) with 0. apply substring_all. lia. }
  assert (H2 : py_slice s (Some (-2)%Z) None = s).
  { unfold py_slice, slice_index. change (-2 <? 0)%Z with true. cbv iota.
    replace (Z.max (-2 + Z.of_nat (String.length s)) 0) with 0%Z by lia.
    change (Z.to_nat 0) with 0. apply substring_all. lia. }
  split; [exact H3|]. split; [exact H2|].
  unfold _convert_time_string. rewrite H3, H2.
  destruct (int_of_str s); reflexivity.
Qed.

(** ** Outcomes of a converted call *)

Section Outcomes.
Context {float_t : Type} {json_object : Type}.
Variable py_float : string -> option float_t.
Variable date_fromisoformat : string -> option pydate.
Variable py_str : json_object -> string.
Variable requests_get_json : string -> result (response json_object).

Abbreviation summaries :=
  (get_daily_summaries py_float date_fromisoformat py_str requests_get_json).

Lemma init_all_normalized (tdata : list (dict (value float_t))) :
  for_each DailySummary_init
    (map (fun i => map (filled i) template) tdata)
  = Ok (map (fun i => map (filled i) template) tdata).
Proof.
  induction tdata as [|i tdata IH]; [reflexivity|].
  rewrite map_cons. cbn [for_each].
  rewrite init_normalized by apply normalized_keys.
  cbn [bind]. rewrite IH. reflexivity.
Qed.

(** The stages after the request, in closed form: normalization and the
    constructor never raise. *)
Lemma stages_eq (rows : list (dict string)) :
  (data <- _convert_keys rows ;;
   data <- _coerce_types py_float date_fromisoformat data ;;
   data <- _remap_dictionaries data ;;
   records <- for_each DailySummary_init data ;;
   Ok (Summaries records))
  = (data <- _convert_keys rows ;;
     typed <- _coerce_types py_float date_fromisoformat data ;;
     Ok (Summaries (map (fun i => map (filled i) template) typed))).
Proof.
  destruct (_convert_keys rows) as [data|e]; cbn [bind]; [|reflexivity].
  destruct (_coerce_types py_float date_fromisoformat data) as [typed|e];
    cbn [bind]; [|reflexivity].
  rewrite remap_dictionaries_eq. cbn [bind].
  rewrite init_all_normalized. reflexivity.
Qed.

Lemma converted_call_eq (station_id : string)
  (start_date end_date : date_arg) (units : units_arg) (return_raw : bool)
  (url : string) (rows : list (dict string)) :
  fst (summaries station_id start_date end_date units return_raw) = [url] ->
  requests_get_json url = Ok (RespList rows) ->
  snd (summaries station_id start_date end_date units true) = Ok (Raw rows)
  /\
  snd (summaries station_id start_date end_date units false)
  = (data <- _convert_keys rows ;;
     typed <- _coerce_types py_float date_fromisoformat data ;;
     Ok (Summaries (map (fun i => map (filled i) template) typed))).
Proof.
  unfold get_daily_summaries.
  destruct (_validate_dates start_date end_date) as [[s e]|x];
    [|discriminate].
  unfold _make_api_call. cbn [fst snd]. intros [= ->] Hreply.
  rewrite Hreply. cbn [bind]. split; [reflexivity | apply stages_eq].
Qed.


(** X15.  A code that the enumeration lacks stops a converted call with a
    [KeyError] before any value is parsed, while the raw call returns the
    same rows untouched. *)
Theorem unknown_code_stops_converted_call_only (station_id : string)
  (start_date end_date : date_arg) (units : units_arg) (url : string)
  (rows : list (dict string)) (row : dict string) (k : string) :
  fst (summaries station_id start_date end_date units false) = [url] ->
  requests_get_json url = Ok (RespList rows) ->
  In row rows -> dict_mem k row = true -> dict_get ConversionEnum k = None ->
  (exists k',
     snd (summaries station_id start_date end_date units false)
     = Raise (KeyError k') /\
     dict_get ConversionEnum k' = None) /\
  snd (summaries station_id start_date end_date units true) = Ok (Raw rows).
Proof.
  intros Hurl Hreply Hin Hmem Hk.
  destruct (converted_call_eq _ _ _ _ _ _ _ Hurl Hreply) as [Hraw Hconv].
  split; [|exact Hraw]. rewrite Hconv.
  destruct (_convert_keys rows) as [data|e] eqn:Hc.
  - exfalso. revert Hc. apply (for_each_not_ok _ _ row Hin).
    intros y Hy. apply dict_mem_In in Hmem.
    destruct (convert_loop_unknown row [] k Hmem Hk) as [e He].
    unfold convert_row, dict_items in Hy. congruence.
  - apply convert_keys_raise in Hc as (k' & row' & -> & _ & _ & Hk').
    exists k'. split; [reflexivity | exact Hk'].
Qed.
End Outcomes.

(** ** More on the normalizer *)

Section NormalizerMore.
Context {float_t : Type}.
Implicit Types (i r : dict (value float_t)).

(** X16.  In a normalized record a field holds the value of the row when the row
    has it, whatever that value is, and otherwise [False] for a boolean
    field and [None] for any other; a key of the row that is no field is
    dropped. *)
Theorem remap_keeps_present_values (data : list (dict (value float_t)))
  (n : nat) i :
  nth_error data n = Some i ->
  exists out r,
    _remap_dictionaries data = Ok out /\
    nth_error out n = Some r /\
    (forall f, In f field_names ->
       dict_get r f
       = Some (match dict_get i f with
               | Some v => v
               | None => if boolean_field f then VBool false else VNone
               end)) /\
    (forall k, ~ In k field_names -> dict_get r k = None).
Proof.
  intros Hn.
  exists (map (fun i => map (filled i) template) data),
         (map (filled i) template).
  split; [apply remap_dictionaries_eq|].
  split; [exact (map_nth_error (fun i => map (filled i) template) n data Hn)|].
  split.
  - intros f Hf. rewrite dict_get_filled, template_get.
    unfold boolean_field.
    assert (Hin : In f (dict_keys __annotations__)).
    { unfold __annotations__, dict_keys. now rewrite map_map. }
    apply dict_mem_In, dict_mem_get in Hin as [a Ha]. rewrite Ha.
    cbn [option_map]. destruct (dict_get i f); [reflexivity|].
    destruct a; reflexivity.
  - intros k Hk. apply dict_get_None. now rewrite normalized_keys.
Qed.

Lemma filled_self r :
  dict_keys r = field_names -> map (filled r) template = r.
Proof.
  intros Hkeys.
  assert (Hc : complete r = true).
  { unfold complete. rewrite Hkeys. apply andb_true_iff. split.
    - apply distinct_NoDup, field_names_distinct.
    - apply same_keys_iff. tauto. }
  rewrite (complete_filled r Hc), <- Hkeys. symmetry.
  apply dict_as_lookups. rewrite Hkeys. exact field_names_distinct.
Qed.

(** X17.  Normalizing twice is normalizing once: what the normalizer returns it
    returns again, item for item and in the same order. *)
Theorem remap_idempotent (data out : list (dict (value float_t))) :
  _remap_dictionaries data = Ok out -> _remap_dictionaries out = Ok out.
Proof.
  rewrite remap_dictionaries_eq. intros H. apply Ok_inj in H. subst out.
  rewrite remap_dictionaries_eq. f_equal. rewrite map_map.
  apply map_ext. intros i. apply filled_self, normalized_keys.
Qed.
End NormalizerMore.

(** ** The translation table *)

(** X21.  The enumeration translates its codes one-to-one onto the fields of the
    dataclass: every field is the translation of exactly one code. *)
Theorem every_field_has_one_code (f : string) :
  In f field_names <->
  exists c, enum_value c = Ok f /\
            forall c', enum_value c' = Ok f -> c' = c.
Proof.
  unfold enum_value, dict_index. split.
  - intros Hf. apply enum_values_are_fields in Hf.
    apply in_map_iff in Hf as ([c f'] & Hf' & Hin). cbn [snd] in Hf'.
    subst f'. exists c.
    rewrite (In_dict_get c f ConversionEnum enum_names_distinct Hin).
    split; [reflexivity|]. intros c' Hc'.
    destruct (dict_get ConversionEnum c') as [n|] eqn:E; [|discriminate].
    apply Ok_inj in Hc'. subst n.
    exact (enum_injective c' c f E
             (In_dict_get c f ConversionEnum enum_names_distinct Hin)).
  - intros (c & Hc & _).
    destruct (dict_get ConversionEnum c) as [n|] eqn:E; [|discriminate].
    apply Ok_inj in Hc. subst n. apply enum_values_are_fields.
    apply dict_get_In in E. change f with (snd (c, f)). now apply in_map.
Qed.

(** ** The further properties at concrete inputs *)


Lemma call_returns_typed_values_witness :
  SampleRun.call_rows UnitsOmitted false
  = ([SampleRun.url], Ok (Summaries SampleRun.records)) /\
  Sample.serve_rows SampleRun.url = Ok (RespList Sample.rows) /\
  Forall (fun row => distinct (dict_keys row) = true) Sample.rows /\
  Forall2
    (fun row record =>
       forall c f a v,
         enum_value c = Ok f -> dict_get __annotations__ f = Some a ->
         dict_get row c = Some v ->
         exists x, dict_get record f = Some x /\
                   coerced Sample.py_float Sample.date_fromisoformat a v x)
    Sample.rows SampleRun.records.
Proof.
  assert (H1 : SampleRun.call_rows UnitsOmitted false
               = ([SampleRun.url], Ok (Summaries SampleRun.records)))
    by (vm_compute; reflexivity).
  assert (H2 : Sample.serve_rows SampleRun.url = Ok (RespList Sample.rows))
    by reflexivity.
  assert (H3 : Forall (fun row => distinct (dict_keys row) = true)
                 Sample.rows)
    by (repeat constructor).
  split; [exact H1|]. split; [exact H2|]. split; [exact H3|].
  exact (call_returns_typed_values
           Sample.py_float Sample.date_fromisoformat Sample.py_str
           Sample.serve_rows "USW00024233" (ArgStr "2020-05-01")
           (ArgStr "2020-05-02") UnitsOmitted SampleRun.url Sample.rows
           SampleRun.records H1 H2 H3).
Defined.

Lemma convert_time_string_reads_padded_code_witness :
  (" "%char = " "%char \/ " "%char = "0"%char) /\
  is_digit "1" = true /\ is_digit "2" = true /\
  is_digit "3" = true /\ is_digit "0" = true /\
  _convert_time_string " 1230" = Ok (mk_time 12 30 0 0).
Proof.
  split; [now left|]. repeat (split; [reflexivity|]).
  exact (proj2 (convert_time_string_reads_padded_code " " "1" "2" "3" "0"
                  (or_introl eq_refl) eq_refl eq_refl eq_refl eq_refl)
           ltac:(vm_compute; discriminate) ltac:(vm_compute; discriminate)).
Defined.

Lemma convert_time_string_misreads_four_digits_witness :
  is_digit "1" = true /\ is_digit "2" = true /\
  is_digit "3" = true /\ is_digit "0" = true /\
  "1"%char <> "0"%char /\
  _convert_time_string "1230" = Raise (ValueError None).
Proof.
  assert (H : "1"%char <> "0"%char) by discriminate.
  repeat (split; [reflexivity|]). split; [exact H|].
  exact (proj2 (convert_time_string_misreads_four_digits "1" "2" "3" "0"
                  eq_refl eq_refl eq_refl eq_refl) H).
Defined.

Lemma convert_time_string_short_text_witness :
  String.length "7" <= 2 /\
  _convert_time_string "7" = (n <- int_of_str "7" ;; datetime_time n n).
Proof.
  assert (H : String.length "7" <= 2) by (simpl; lia).
  split; [exact H|].
  exact (proj2 (proj2 (convert_time_string_short_text "7" H))).
Defined.


Lemma unknown_code_stops_converted_call_only_witness :
  fst (SampleMore.call_unknown false) = [SampleRun.url] /\
  SampleMore.serve_unknown SampleRun.url
  = Ok (RespList SampleRun.rows_with_unknown_code) /\
  In [("TMIN", "280"); ("WT10", "1")] SampleRun.rows_with_unknown_code /\
  dict_mem "WT10" [("TMIN", "280"); ("WT10", "1")] = true /\
  dict_get ConversionEnum "WT10" = None /\
  snd (SampleMore.call_unknown true)
  = Ok (Raw SampleRun.rows_with_unknown_code).
Proof.
  assert (H3 : In [("TMIN", "280"); ("WT10", "1")]
                  SampleRun.rows_with_unknown_code)
    by (right; now left).
  split; [reflexivity|]. split; [reflexivity|]. split; [exact H3|].
  split; [reflexivity|]. split; [reflexivity|].
  exact (proj2 (unknown_code_stops_converted_call_only
                  Sample.py_float Sample.date_fromisoformat Sample.py_str
                  SampleMore.serve_unknown "USW00024233"
                  (ArgStr "2020-05-01") (ArgStr "2020-05-02") UnitsOmitted
                  SampleRun.url SampleRun.rows_with_unknown_code
                  [("TMIN", "280"); ("WT10", "1")] "WT10"
                  eq_refl eq_refl H3 eq_refl eq_refl)).
Defined.

Lemma remap_keeps_present_values_witness :
  nth_error [SampleMore.partial] 0 = Some SampleMore.partial /\
  exists out r,
    _remap_dictionaries [SampleMore.partial] = Ok out /\
    nth_error out 0 = Some r /\
    (forall f, In f field_names ->
       dict_get r f
       = Some (match dict_get SampleMore.partial f with
               | Some v => v
               | None => if boolean_field f then VBool false else VNone
               end)) /\
    (forall k, ~ In k field_names -> dict_get r k = None).
Proof.
  split; [reflexivity|].
  exact (remap_keeps_present_values [SampleMore.partial] 0
           SampleMore.partial eq_refl).
Defined.

Lemma remap_idempotent_witness :
  _remap_dictionaries [SampleMore.partial]
  = Ok [map (filled SampleMore.partial) template] /\
  _remap_dictionaries [map (filled SampleMore.partial) template]
  = Ok [map (filled SampleMore.partial) template].
Proof.
  assert (H : _remap_dictionaries [SampleMore.partial]
              = Ok [map (filled SampleMore.partial) template])
    by (vm_compute; reflexivity).
  split; [exact H|].
  exact (remap_idempotent [SampleMore.partial] _ H).
Defined.
